(** * GitHub Media Uploader (Obsidian plugin): a shallow embedding.

    The plugin is a sequence of host calls around a handful of string
    computations.  The development has three layers:

    - [JsString]: the ECMAScript string operations the plugin uses
      ([trim], [startsWith], [endsWith], [includes], [indexOf],
      [String.prototype.replace] with a string pattern, the global
      regular-expression replace of whitespace runs, number to
      string conversion);
    - the host: the editor interface, the effects a handler can perform
      and a small state-and-exception monad in which the handlers are
      written;
    - the handlers of [src/main.js] ([handlePaste], [handleFileCreate],
      [processUpload], [fileToBase64], [uploadToGithub]) and the older
      single-path [handlePaste] kept in the second source file.

    Strings are sequences of code units; the model keeps the code units
    below 256, which is enough for every literal of the plugin. *)

From Stdlib Require Import ZArith QArith Bool List Lia.
From Stdlib Require Import Strings.Ascii Strings.String Numbers.DecimalString.
Import ListNotations.

Close Scope Q_scope.
Open Scope nat_scope.
Open Scope string_scope.

(* ================================================================== *)
(** * ECMAScript strings *)
(* ================================================================== *)

Module JsString.

(** [WhiteSpace] and [LineTerminator] code units below 256: TAB, LF, VT,
    FF, CR, SPACE and NO-BREAK SPACE.  This is the class matched by [\s]
    and stripped by [trim]. *)
Definition isWhiteSpace (c : ascii) : bool :=
  let n := nat_of_ascii c in
  ((9 <=? n)%nat && (n <=? 13)%nat) || (n =? 32)%nat || (n =? 160)%nat.

Definition isEmpty (s : string) : bool :=
  match s with
  | EmptyString => true
  | String _ _ => false
  end.

(** A string is truthy when it is not empty. *)
Definition truthy (s : string) : bool := negb (isEmpty s).

Fixpoint trimStart (s : string) : string :=
  match s with
  | EmptyString => EmptyString
  | String c r => if isWhiteSpace c then trimStart r else s
  end.

Fixpoint trimEnd (s : string) : string :=
  match s with
  | EmptyString => EmptyString
  | String c r =>
      let r' := trimEnd r in
      if isWhiteSpace c && isEmpty r' then EmptyString else String c r'
  end.

Definition trim (s : string) : string := trimEnd (trimStart s).

Definition startsWith (p s : string) : bool := String.prefix p s.

Definition endsWith (p s : string) : bool :=
  let n := String.length s in
  let m := String.length p in
  (m <=? n)%nat && String.eqb (substring (n - m) m s) p.

(** [s.slice(0, -1)] *)
Definition dropLast (s : string) : string :=
  substring 0 (String.length s - 1) s.

(** [StringIndexOf(s, t, 0)]: the position of the first occurrence. *)
Fixpoint indexOf (t s : string) : option nat :=
  if String.prefix t s then Some 0
  else match s with
       | EmptyString => None
       | String _ r => option_map S (indexOf t r)
       end.

Definition includes (t s : string) : bool :=
  match indexOf t s with
  | Some _ => true
  | None => false
  end.

(** The substring from position [n] to the end. *)
Fixpoint from (n : nat) (s : string) : string :=
  match n, s with
  | O, _ => s
  | S n', String _ r => from n' r
  | S _, EmptyString => EmptyString
  end.

(** [GetSubstitution] for a string pattern: there are no captures and no
    named groups, so only the four patterns below are special; a dollar
    sign followed by anything else stands for itself. *)
Fixpoint GetSubstitution (matched before after template : string) : string :=
  match template with
  | EmptyString => EmptyString
  | String c rest =>
      if Ascii.eqb c "$" then
        match rest with
        | String d rest' =>
            if Ascii.eqb d "$" then
              String "$" (GetSubstitution matched before after rest')
            else if Ascii.eqb d "&" then
              matched ++ GetSubstitution matched before after rest'
            else if Ascii.eqb d "`" then
              before ++ GetSubstitution matched before after rest'
            else if Ascii.eqb d "'" then
              after ++ GetSubstitution matched before after rest'
            else String c (GetSubstitution matched before after rest)
        | EmptyString => String c EmptyString
        end
      else String c (GetSubstitution matched before after rest)
  end.

(** [String.prototype.replace(searchValue, replaceValue)] with two
    strings: only the first occurrence is replaced, and the replacement
    text goes through [GetSubstitution]. *)
Definition replace (searchValue replaceValue s : string) : string :=
  match indexOf searchValue s with
  | None => s
  | Some pos =>
      let preserved := substring 0 pos s in
      let rest := from (pos + String.length searchValue) s in
      preserved
        ++ GetSubstitution searchValue preserved rest replaceValue
        ++ rest
  end.

(** [s.replace(/\s+/g, '-')]: every maximal run of white space becomes
    one hyphen.  [inRun] tells that the previous code unit was white
    space, so the hyphen for this run is already out. *)
Fixpoint replaceRuns (inRun : bool) (s : string) : string :=
  match s with
  | EmptyString => EmptyString
  | String c r =>
      if isWhiteSpace c then
        if inRun then replaceRuns true r
        else String "-" (replaceRuns true r)
      else String c (replaceRuns false r)
  end.

Definition replaceWhiteSpaceRuns (s : string) : string := replaceRuns false s.

(** Number to string for integers, as a template literal prints them
    (the plugin only prints time stamps and HTTP status codes). *)
Definition ofZ (z : Z) : string := NilZero.string_of_int (Z.to_int z).

(** The double quote, for the literals that contain one. *)
Definition dquote : string := String (ascii_of_nat 34) EmptyString.

(** [result.substr(result.indexOf(',') + 1)]: when there is no comma
    [indexOf] is -1 and the whole string is kept. *)
Definition afterFirstComma (s : string) : string :=
  match indexOf "," s with
  | Some i => from (i + 1) s
  | None => s
  end.

(** True when the replacement text holds one of the four patterns that
    [GetSubstitution] expands. *)
Fixpoint hasSubstitutionPattern (template : string) : bool :=
  match template with
  | EmptyString => false
  | String c rest =>
      (Ascii.eqb c "$" &&
       match rest with
       | String d _ =>
           Ascii.eqb d "$" || Ascii.eqb d "&" || Ascii.eqb d "`" || Ascii.eqb d "'"
       | EmptyString => false
       end)
      || hasSubstitutionPattern rest
  end.

End JsString.

Import JsString.


(* ================================================================== *)
(** * The host: editor, effects, handler monad *)
(* ================================================================== *)

(** The part of the editor interface the plugin calls.  The plugin
    never looks at the selection itself; the three laws are what the
    host promises about the text. *)
Class EditorOps (Editor : Type) := {
  getValue : Editor -> string;
  setValue : string -> Editor -> Editor;
  replaceSelection : string -> Editor -> Editor;
  beforeSelection : Editor -> string;
  getSelection : Editor -> string;
  afterSelection : Editor -> string;
  getValue_selection : forall e,
    getValue e = beforeSelection e ++ getSelection e ++ afterSelection e;
  getValue_setValue : forall s e, getValue (setValue s e) = s;
  getValue_replaceSelection : forall s e,
    getValue (replaceSelection s e) = beforeSelection e ++ s ++ afterSelection e
}.

(** A concrete editor: the text split around the selection.  After
    [replaceSelection] the cursor sits behind the inserted text; after
    [setValue] it sits at the start of the document. *)
Record Buffer := {
  textBefore : string;
  textSelected : string;
  textAfter : string
}.

#[export, refine] Instance BufferOps : EditorOps Buffer := {
  getValue b := textBefore b ++ textSelected b ++ textAfter b;
  setValue s _ := {| textBefore := ""; textSelected := ""; textAfter := s |};
  replaceSelection s b :=
    {| textBefore := textBefore b ++ s; textSelected := ""; textAfter := textAfter b |};
  beforeSelection := textBefore;
  getSelection := textSelected;
  afterSelection := textAfter
}.
Proof.
  - reflexivity.
  - reflexivity.
  - intros s b; simpl.
    induction (textBefore b) as [|c r IH]; simpl; [reflexivity | now rewrite IH].
Defined.

(** A document with the cursor at position 0 and nothing selected. *)
Definition bufferOf (s : string) : Buffer :=
  {| textBefore := ""; textSelected := ""; textAfter := s |}.

(** Values a handler can throw or a promise can reject with. *)
Inductive JsValue :=
| ErrorObject (message : string) (status : option Z)
| ProgressEvent.

(** [e.status] *)
Definition statusOf (e : JsValue) : option Z :=
  match e with
  | ErrorObject _ st => st
  | ProgressEvent => None
  end.

(** [`${e.message}`] *)
Definition messageOf (e : JsValue) : string :=
  match e with
  | ErrorObject m _ => m
  | ProgressEvent => "undefined"
  end.

(** The notices of the plugin, one constructor for each template:
    "File too big (..MB). Limit 25MB.", "Configure GitHub settings.",
    "Mobile Upload Detected: ..", "Uploaded: ..", "Upload Failed: ..",
    and from the older handler "File too big (..MB). GitHub API limit is
    25MB.", "Please configure GitHub settings first." and
    "Uploading ..".  The size is kept as a number, not printed. *)
Inductive NoticeText :=
| FileTooBig (sizeInMB : Q)
| ConfigureGitHubSettings
| MobileUploadDetected (name : string)
| Uploaded (fileName : string)
| UploadFailed (message : string)
| FileTooBigApiLimit (sizeInMB : Q)
| PleaseConfigureFirst
| UploadingType (type : string).

Record Request := {
  url : string;
  method : string;
  authorization : string;
  contentType : string;
  userAgent : string;
  bodyMessage : string;
  bodyContent : option string;
  bodyBranch : string
}.

(** What [requestUrl] does with a request: the promise resolves with a
    response, or rejects. *)
Inductive RequestOutcome :=
| Resolved (status : Z)
| Rejected (e : JsValue).

(** Everything a handler does to the world outside, in order. *)
Inductive Effect :=
| Notice (n : NoticeText)
| ConsoleError (e : JsValue)
| RequestUrl (r : Request)
| EditorReplaceSelection (text : string)
| EditorSetValue (text : string)
| VaultReadBinary (path : string)
| VaultDelete (path : string)
| PreventDefault.

Inductive Completion (A : Type) :=
| Normal (a : A)
| Throw (e : JsValue).
Arguments Normal {A} a.
Arguments Throw {A} e.

Section Host.

Context {Editor : Type} `{EditorOps Editor}.

(** The editor the handler works on, the files of the vault (path and
    bytes) and the effects performed so far. *)
Record World := {
  editor : Editor;
  vault : list (string * string);
  effects : list Effect
}.

Definition M (A : Type) : Type := World -> Completion A * World.

Definition ret {A} (a : A) : M A := fun w => (Normal a, w).

Definition bind {A B} (c : M A) (k : A -> M B) : M B :=
  fun w =>
    match c w with
    | (Normal a, w') => k a w'
    | (Throw e, w') => (Throw e, w')
    end.

Definition throw {A} (e : JsValue) : M A := fun w => (Throw e, w).

Definition tryCatch {A} (body : M A) (handler : JsValue -> M A) : M A :=
  fun w =>
    match body w with
    | (Normal a, w') => (Normal a, w')
    | (Throw e, w') => handler e w'
    end.

Definition emit (e : Effect) : M unit :=
  fun w =>
    (Normal tt,
     {| editor := editor w; vault := vault w; effects := (effects w ++ [e])%list |}).

Definition newNotice (n : NoticeText) : M unit := emit (Notice n).

Definition consoleError (e : JsValue) : M unit := emit (ConsoleError e).

Definition updateEditor (f : Editor -> Editor) : M unit :=
  fun w =>
    (Normal tt, {| editor := f (editor w); vault := vault w; effects := effects w |}).

Definition editorGetValue : M string :=
  fun w => (Normal (getValue (editor w)), w).

Definition editorSetValue (text : string) : M unit :=
  bind (emit (EditorSetValue text)) (fun _ => updateEditor (setValue text)).

Definition editorReplaceSelection (text : string) : M unit :=
  bind (emit (EditorReplaceSelection text))
       (fun _ => updateEditor (replaceSelection text)).

(** The handler is suspended in an [await]; the user and the host go on
    editing the buffer meanwhile. *)
Definition await (meanwhile : Editor -> Editor) : M unit := updateEditor meanwhile.

Fixpoint lookupFile (path : string) (files : list (string * string)) : option string :=
  match files with
  | [] => None
  | (p, bytes) :: rest => if String.eqb p path then Some bytes else lookupFile path rest
  end.

Fixpoint removeFile (path : string) (files : list (string * string)) : list (string * string) :=
  match files with
  | [] => []
  | (p, bytes) :: rest =>
      if String.eqb p path then removeFile path rest
      else (p, bytes) :: removeFile path rest
  end.

(** [vault.readBinary(file)]: rejects when the file is gone. *)
Definition vaultReadBinary (path : string) : M string :=
  bind (emit (VaultReadBinary path)) (fun _ w =>
    match lookupFile path (vault w) with
    | Some bytes => (Normal bytes, w)
    | None => (Throw (ErrorObject "ENOENT" None), w)
    end).

Definition vaultDelete (path : string) : M unit :=
  bind (emit (VaultDelete path)) (fun _ w =>
    (Normal tt,
     {| editor := editor w; vault := removeFile path (vault w); effects := effects w |})).

End Host.

Arguments World Editor : clear implicits.
Arguments M Editor A : clear implicits.

Declare Scope handler_scope.
Delimit Scope handler_scope with handler.
Notation "x <- c ;; k" := (bind c (fun x => k))
  (at level 61, c at next level, right associativity) : handler_scope.
Notation "c ;; k" := (bind c (fun _ => k))
  (at level 61, right associativity) : handler_scope.

(* ================================================================== *)
(** * The plugin *)
(* ================================================================== *)

Record Settings := {
  githubUser : string;
  githubRepo : string;
  githubToken : string;
  folderPath : string;
  branch : string
}.

Definition DEFAULT_SETTINGS : Settings :=
  {| githubUser := ""; githubRepo := ""; githubToken := "";
     folderPath := ""; branch := "main" |}.

(** A [File] of the clipboard. *)
Record File := {
  fileName : string;
  fileType : string;
  fileSize : Z
}.

(** A file of the vault ([TFile]). *)
Record TFile := {
  tfPath : string;
  tfName : string;
  tfExtension : string;
  tfStatSize : Z
}.

(** The argument of [processUpload]: a [File] of the clipboard, or the
    object literal that [handleFileCreate] builds. *)
Record FileObj := {
  name : string;
  type : string;
  base64 : option string;
  size : Z;
  instanceofFile : bool
}.

Definition ofFile (f : File) : FileObj :=
  {| name := fileName f; type := fileType f; base64 := None;
     size := fileSize f; instanceofFile := true |}.

(** What the world outside answers during one run of a handler: the
    two clock readings, the result of the [FileReader] ([None] when it
    fires [onerror]), the outcome of the HTTP request, and the edits
    made to the buffer while the handler is suspended. *)
Record Env (Editor : Type) := {
  nowPlaceholder : Z;
  nowFileName : Z;
  readerResult : option string;
  requestOutcome : RequestOutcome;
  editsWhileSettling : Editor -> Editor;
  editsWhileReadingVault : Editor -> Editor;
  editsWhileEncoding : Editor -> Editor;
  editsWhileUploading : Editor -> Editor
}.
Arguments nowPlaceholder {Editor} _.
Arguments nowFileName {Editor} _.
Arguments readerResult {Editor} _.
Arguments requestOutcome {Editor} _.
Arguments editsWhileSettling {Editor} _ _.
Arguments editsWhileReadingVault {Editor} _ _.
Arguments editsWhileEncoding {Editor} _ _.
Arguments editsWhileUploading {Editor} _ _.

(** [fileObj.size / (1024 * 1024)].  Sizes are integers below 2^53 and
    the divisor is a power of two, so the quotient is exact in double
    precision and a rational models it. *)
Definition sizeInMB (size : Z) : Q := (inject_Z size / inject_Z (1024 * 1024))%Q.

(** [sizeInMB > 25] *)
Definition overLimit (size : Z) : bool := negb (Qle_bool (sizeInMB size) 25).

(** [!base64Data] *)
Definition missing (base64Data : option string) : bool :=
  match base64Data with
  | Some s => isEmpty s
  | None => true
  end.

(** The remote file name and path, [src/main.js] lines 105 to 109. *)
Definition remoteFileName (now : Z) (name : string) : string :=
  ofZ now ++ "-" ++ replaceWhiteSpaceRuns name.

Definition remoteFolder (folderPath : string) : string :=
  let folder := trim folderPath in
  if endsWith "/" folder then dropLast folder else folder.

Definition remotePath (folderPath : string) (fileName : string) : string :=
  let folder := remoteFolder folderPath in
  if truthy folder then folder ++ "/" ++ fileName else fileName.

Definition rawUrlOf (user repo branch path : string) : string :=
  "https://raw.githubusercontent.com/" ++ user ++ "/" ++ repo ++ "/" ++ branch ++ "/" ++ path.

Definition imageEmbed (rawUrl : string) : string := "![](" ++ rawUrl ++ ")".

Definition videoEmbed (rawUrl : string) : string :=
  "<video src=" ++ dquote ++ rawUrl ++ dquote ++ " controls></video>".

Definition failureMarker (text : string) : string := "[Upload Failed: " ++ text ++ "]".

Definition repoNotFound : JsValue :=
  ErrorObject "Repo not found (404). Check Username/Repo." None.
Definition invalidToken : JsValue := ErrorObject "Invalid Token (401)." None.
Definition fileTooLarge : JsValue := ErrorObject "File too large (413)." None.
Definition gitHubStatus (status : Z) : JsValue :=
  ErrorObject ("GitHub Status " ++ ofZ status) None.

Definition hasStatus (e : JsValue) (code : Z) : bool :=
  match statusOf e with
  | Some st => Z.eqb st code
  | None => false
  end.

Module Main.
Section Handlers.

Context {Editor : Type} `{EditorOps Editor}.
Variable settings : Settings.
Variable env : Env Editor.

Local Open Scope handler_scope.

Definition fileToBase64 : M Editor string :=
  await (editsWhileEncoding env) ;;
  match readerResult env with
  | Some result => ret (afterFirstComma result)
  | None => throw ProgressEvent
  end.

(** [obsidian.requestUrl]: the request goes out, the handler waits. *)
Definition requestUrl (r : Request) : M Editor Z :=
  emit (RequestUrl r) ;;
  await (editsWhileUploading env) ;;
  match requestOutcome env with
  | Resolved status => ret status
  | Rejected e => throw e
  end.

Definition uploadToGithub (user repo token branch path : string)
    (content : option string) : M Editor unit :=
  let url := "https://api.github.com/repos/" ++ user ++ "/" ++ repo ++ "/contents/" ++ path in
  tryCatch
    (status <- requestUrl
        {| url := url;
           method := "PUT";
           authorization := "token " ++ token;
           contentType := "application/json";
           userAgent := "Obsidian-Plugin";
           bodyMessage := "Upload " ++ path;
           bodyContent := content;
           bodyBranch := branch |} ;;
     if negb (Z.eqb status 200) && negb (Z.eqb status 201)
     then throw (gitHubStatus status)
     else ret tt)
    (fun e =>
       if hasStatus e 404 then throw repoNotFound
       else if hasStatus e 401 then throw invalidToken
       else if hasStatus e 413 then throw fileTooLarge
       else throw e).

Definition placeholderOf (fileObj : FileObj) : string :=
  "![Uploading " ++ name fileObj ++ "...](" ++ ofZ (nowPlaceholder env) ++ ")".

Definition embedCodeOf (fileObj : FileObj) (rawUrl : string) : string :=
  if startsWith "image/" (type fileObj) then imageEmbed rawUrl else videoEmbed rawUrl.

Definition processUpload (fileObj : FileObj) (isPasteEvent : bool)
    (linkToReplace : option string) : M Editor bool :=
  if overLimit (size fileObj) then
    newNotice (FileTooBig (sizeInMB (size fileObj))) ;;
    ret false
  else
    let user := trim (githubUser settings) in
    let repo := trim (githubRepo settings) in
    let token := trim (githubToken settings) in
    let branch := trim (branch settings) in
    if isEmpty user || isEmpty repo || isEmpty token then
      newNotice ConfigureGitHubSettings ;;
      ret false
    else
      let placeholder := placeholderOf fileObj in
      (if isPasteEvent then editorReplaceSelection placeholder
       else
         match linkToReplace with
         | Some link =>
             if truthy link then
               current <- editorGetValue ;;
               editorSetValue (replace link placeholder current)
             else ret tt
         | None => ret tt
         end) ;;
      tryCatch
        (base64Data <-
           (if missing (base64 fileObj) && instanceofFile fileObj
            then (b <- fileToBase64 ;; ret (Some b))
            else ret (base64 fileObj)) ;;
         let fileName := remoteFileName (nowFileName env) (name fileObj) in
         let path := remotePath (folderPath settings) fileName in
         uploadToGithub user repo token branch path base64Data ;;
         let rawUrl := rawUrlOf user repo branch path in
         let embedCode := embedCodeOf fileObj rawUrl in
         currentContent <- editorGetValue ;;
         (if includes placeholder currentContent
          then editorSetValue (replace placeholder embedCode currentContent)
          else editorReplaceSelection embedCode) ;;
         newNotice (Uploaded fileName) ;;
         ret true)
        (fun error =>
           consoleError error ;;
           newNotice (UploadFailed (messageOf error)) ;;
           currentContent <- editorGetValue ;;
           editorSetValue
             (replace placeholder (failureMarker (name fileObj)) currentContent) ;;
           ret false).

Definition handlePaste (files : list File) : M Editor unit :=
  match files with
  | [] => ret tt
  | file :: _ =>
      if negb (startsWith "image/" (fileType file))
         && negb (startsWith "video/" (fileType file))
      then ret tt
      else
        emit PreventDefault ;;
        _ <- processUpload (ofFile file) true None ;;
        ret tt
  end.

Definition imageExtensions : list string :=
  ["png"; "jpg"; "jpeg"; "gif"; "svg"; "webp"].
Definition videoExtensions : list string := ["mp4"; "webm"; "mov"].

(** [list.includes(x)] *)
Definition listIncludes (x : string) (l : list string) : bool :=
  existsb (String.eqb x) l.

(** [activeLeaf] is [None] when the workspace has no active leaf, and
    otherwise the view type of the leaf; the [editor] of the world is
    the editor of that view.  [arrayBufferToBase64] is the host's
    encoder. *)
Definition handleFileCreate (arrayBufferToBase64 : string -> string)
    (activeLeaf : option string) (file : TFile) : M Editor unit :=
  let isImage := listIncludes (tfExtension file) imageExtensions in
  let isVideo := listIncludes (tfExtension file) videoExtensions in
  if negb isImage && negb isVideo then ret tt
  else
    match activeLeaf with
    | None => ret tt
    | Some viewType =>
        if negb (String.eqb viewType "markdown") then ret tt
        else
          await (editsWhileSettling env) ;;
          content <- editorGetValue ;;
          let linkString := "![[" ++ tfName file ++ "]]" in
          if negb (includes (tfName file) content) then ret tt
          else
            newNotice (MobileUploadDetected (tfName file)) ;;
            await (editsWhileReadingVault env) ;;
            binary <- vaultReadBinary (tfPath file) ;;
            let base64Data := arrayBufferToBase64 binary in
            let fileObj :=
              {| name := tfName file;
                 type := if isImage then "image/" ++ tfExtension file
                         else "video/" ++ tfExtension file;
                 base64 := Some base64Data;
                 size := tfStatSize file;
                 instanceofFile := false |} in
            success <- processUpload fileObj false (Some linkString) ;;
            if success then vaultDelete (tfPath file) else ret tt
    end.

End Handlers.
End Main.

(** The second source file: the paste handler before the upload was
    split off into [processUpload].  Its [fileToBase64] and
    [uploadToGithub] are the same text as in [src/main.js]. *)
Module Part000.
Section Handlers.

Context {Editor : Type} `{EditorOps Editor}.
Variable settings : Settings.
Variable env : Env Editor.

Local Open Scope handler_scope.

Definition placeholderOf (file : File) : string :=
  "![Uploading " ++ fileName file ++ "...]()".

Definition handlePaste (files : list File) : M Editor unit :=
  match files with
  | [] => ret tt
  | file :: _ =>
      let isImage := startsWith "image/" (fileType file) in
      let isVideo := startsWith "video/" (fileType file) in
      if negb isImage && negb isVideo then ret tt
      else if overLimit (fileSize file) then
        newNotice (FileTooBigApiLimit (sizeInMB (fileSize file)))
      else
        let user := trim (githubUser settings) in
        let repo := trim (githubRepo settings) in
        let token := trim (githubToken settings) in
        let branch := trim (branch settings) in
        if isEmpty user || isEmpty repo || isEmpty token then
          newNotice PleaseConfigureFirst
        else
          emit PreventDefault ;;
          let placeholder := placeholderOf file in
          editorReplaceSelection placeholder ;;
          tryCatch
            (base64Data <- Main.fileToBase64 env ;;
             let fileName := remoteFileName (nowFileName env) (fileName file) in
             let path := remotePath (folderPath settings) fileName in
             newNotice (UploadingType (fileType file)) ;;
             Main.uploadToGithub env user repo token branch path (Some base64Data) ;;
             let rawUrl := rawUrlOf user repo branch path in
             let embedCode :=
               if isImage then imageEmbed rawUrl
               else if isVideo then videoEmbed rawUrl
               else "" in
             currentContent <- editorGetValue ;;
             editorSetValue (replace placeholder embedCode currentContent) ;;
             newNotice (Uploaded fileName))
            (fun error =>
               consoleError error ;;
               newNotice (UploadFailed (messageOf error)) ;;
               currentContent <- editorGetValue ;;
               editorSetValue
                 (replace placeholder (failureMarker (messageOf error)) currentContent))
  end.

End Handlers.
End Part000.

(* ================================================================== *)
(** * Vocabulary of the statements *)
(* ================================================================== *)

(** The three settings an upload cannot go without, after trimming. *)
Definition configured (settings : Settings) : bool :=
  negb (isEmpty (trim (githubUser settings))
        || isEmpty (trim (githubRepo settings))
        || isEmpty (trim (githubToken settings))).

(** The requests and the vault deletions among a list of effects, and
    whether the list writes to the editor. *)
Fixpoint requestsOf (l : list Effect) : list Request :=
  match l with
  | [] => []
  | RequestUrl r :: rest => r :: requestsOf rest
  | _ :: rest => requestsOf rest
  end.

Fixpoint deletionsOf (l : list Effect) : list string :=
  match l with
  | [] => []
  | VaultDelete p :: rest => p :: deletionsOf rest
  | _ :: rest => deletionsOf rest
  end.

Fixpoint editorWritesOf (l : list Effect) : list Effect :=
  match l with
  | [] => []
  | EditorSetValue t :: rest => EditorSetValue t :: editorWritesOf rest
  | EditorReplaceSelection t :: rest => EditorReplaceSelection t :: editorWritesOf rest
  | _ :: rest => editorWritesOf rest
  end.

(** The number of positions at which [t] occurs in [s]. *)
Fixpoint countOccurrences (t s : string) : nat :=
  (if String.prefix t s then 1 else 0)
  + match s with
    | EmptyString => 0
    | String _ r => countOccurrences t r
    end.

(** [after] is [before] with one occurrence of [t] exchanged for [r]. *)
Definition replacedOnce (t r before after : string) : Prop :=
  exists pre post, before = pre ++ t ++ post /\ after = pre ++ r ++ post.

(** No dollar sign in the text. *)
Fixpoint noDollar (s : string) : bool :=
  match s with
  | EmptyString => true
  | String c r => negb (Ascii.eqb c "$") && noDollar r
  end.

(** ** The remote path, in the words of the specification *)

Fixpoint allWhiteSpace (s : string) : bool :=
  match s with
  | EmptyString => true
  | String c r => isWhiteSpace c && allWhiteSpace r
  end.

Definition startsWithWhiteSpace (s : string) : bool :=
  match s with
  | EmptyString => false
  | String c _ => isWhiteSpace c
  end.

(** "White space runs replaced by hyphens": the text is read from the
    left; a code unit that is not white space is kept, a maximal run of
    white space gives one hyphen. *)
Inductive RunsReplaced : string -> string -> Prop :=
| RunsReplaced_end : RunsReplaced "" ""
| RunsReplaced_keep (c : ascii) (s t : string) :
    isWhiteSpace c = false ->
    RunsReplaced s t ->
    RunsReplaced (String c s) (String c t)
| RunsReplaced_run (c : ascii) (run s t : string) :
    isWhiteSpace c = true ->
    allWhiteSpace run = true ->
    startsWithWhiteSpace s = false ->
    RunsReplaced s t ->
    RunsReplaced (String c (run ++ s)) (String "-" t).

(** "With a trailing slash stripped". *)
Fixpoint stripTrailingSlash (s : string) : string :=
  match s with
  | EmptyString => EmptyString
  | String c r =>
      if Ascii.eqb c "/" && isEmpty r then EmptyString
      else String c (stripTrailingSlash r)
  end.

(** The path as the specification words it: the folder, a slash, the
    time stamp, a hyphen and the cleaned name. *)
Definition statedPath (trimmedFolder name : string) (T : Z) : string :=
  stripTrailingSlash trimmedFolder ++ "/" ++ ofZ T ++ "-" ++ replaceWhiteSpaceRuns name.

Section Phases.

Context {Editor : Type} `{EditorOps Editor}.
Variable settings : Settings.
Variable env : Env Editor.
Variable fileObj : FileObj.
Variable isPasteEvent : bool.
Variable linkToReplace : option string.

Definition userOf : string := trim (githubUser settings).
Definition repoOf : string := trim (githubRepo settings).
Definition tokenOf : string := trim (githubToken settings).
Definition branchOf : string := trim (branch settings).

Definition pathOf : string :=
  remotePath (folderPath settings) (remoteFileName (nowFileName env) (name fileObj)).

Definition embedOf : string :=
  Main.embedCodeOf fileObj (rawUrlOf userOf repoOf branchOf pathOf).

(** [fileToBase64] runs for a clipboard [File] only. *)
Definition needsEncoding : bool :=
  missing (base64 fileObj) && instanceofFile fileObj.

(** The payload of the request. *)
Definition contentOf : option string :=
  if needsEncoding then option_map afterFirstComma (readerResult env)
  else base64 fileObj.

Definition requestOf : Request :=
  {| url := "https://api.github.com/repos/" ++ userOf ++ "/" ++ repoOf
            ++ "/contents/" ++ pathOf;
     method := "PUT";
     authorization := "token " ++ tokenOf;
     contentType := "application/json";
     userAgent := "Obsidian-Plugin";
     bodyMessage := "Upload " ++ pathOf;
     bodyContent := contentOf;
     bodyBranch := branchOf |}.

(** The editor right after the placeholder step of [processUpload]. *)
Definition afterInsertion (e : Editor) : Editor :=
  if isPasteEvent then replaceSelection (Main.placeholderOf env fileObj) e
  else match linkToReplace with
       | Some link =>
           if truthy link
           then setValue (replace link (Main.placeholderOf env fileObj) (getValue e)) e
           else e
       | None => e
       end.

Definition insertionEffects (e : Editor) : list Effect :=
  if isPasteEvent then [EditorReplaceSelection (Main.placeholderOf env fileObj)]
  else match linkToReplace with
       | Some link =>
           if truthy link
           then [EditorSetValue (replace link (Main.placeholderOf env fileObj) (getValue e))]
           else []
       | None => []
       end.

(** The editor when the handler comes back from the request: the
    buffer after the placeholder step, with whatever was typed while the
    file was encoded and sent. *)
Definition atResolution (e : Editor) : Editor :=
  editsWhileUploading env
    (if needsEncoding then editsWhileEncoding env (afterInsertion e)
     else afterInsertion e).

(** The editor when the encoding fails. *)
Definition atEncodingFailure (e : Editor) : Editor :=
  editsWhileEncoding env (afterInsertion e).

(** The value [uploadToGithub] throws for a request outcome, if any. *)
Definition uploadError (o : RequestOutcome) : option JsValue :=
  match o with
  | Resolved status =>
      if negb (Z.eqb status 200) && negb (Z.eqb status 201)
      then Some (gitHubStatus status) else None
  | Rejected e =>
      Some (if hasStatus e 404 then repoNotFound
            else if hasStatus e 401 then invalidToken
            else if hasStatus e 413 then fileTooLarge
            else e)
  end.

End Phases.

Section CourseOfRun.

Context {Editor : Type} `{EditorOps Editor}.
Variable settings : Settings.
Variable env : Env Editor.
Variable fileObj : FileObj.
Variable isPasteEvent : bool.
Variable linkToReplace : option string.
Variable e : Editor.

(** The five ways a run of [processUpload] can go, each with the value
    returned and the effects of the run; [e] is the editor at the
    start. *)
Inductive Course : bool -> list Effect -> Prop :=
| TooBig :
    overLimit (size fileObj) = true ->
    Course false [Notice (FileTooBig (sizeInMB (size fileObj)))]
| NotConfigured :
    overLimit (size fileObj) = false ->
    configured settings = false ->
    Course false [Notice ConfigureGitHubSettings]
| NotEncoded (marked : string) :
    overLimit (size fileObj) = false ->
    configured settings = true ->
    needsEncoding fileObj = true ->
    readerResult env = None ->
    Course false
      (insertionEffects env fileObj isPasteEvent linkToReplace e
       ++ [ConsoleError ProgressEvent; Notice (UploadFailed "undefined");
           EditorSetValue marked])
| NotUploaded (err : JsValue) (marked : string) :
    overLimit (size fileObj) = false ->
    configured settings = true ->
    (needsEncoding fileObj = true -> readerResult env <> None) ->
    uploadError (requestOutcome env) = Some err ->
    Course false
      (insertionEffects env fileObj isPasteEvent linkToReplace e
       ++ [RequestUrl (requestOf settings env fileObj); ConsoleError err;
           Notice (UploadFailed (messageOf err)); EditorSetValue marked])
| Done (write : Effect) :
    overLimit (size fileObj) = false ->
    configured settings = true ->
    (needsEncoding fileObj = true -> readerResult env <> None) ->
    uploadError (requestOutcome env) = None ->
    editorWritesOf [write] = [write] ->
    Course true
      (insertionEffects env fileObj isPasteEvent linkToReplace e
       ++ [RequestUrl (requestOf settings env fileObj); write;
           Notice (Uploaded (remoteFileName (nowFileName env) (name fileObj)))]).

End CourseOfRun.

(** The closing part of the placeholder, with the time stamp that is
    meant to tell placeholders apart. *)
Definition placeholderToken {Editor : Type} (env : Env Editor) : string :=
  "](" ++ ofZ (nowPlaceholder env) ++ ")".

(** The code unit [c] occurs in [s]. *)
Fixpoint occursIn (c : ascii) (s : string) : bool :=
  match s with
  | EmptyString => false
  | String d r => Ascii.eqb c d || occursIn c r
  end.

(** Nothing but decimal digits and the minus sign. *)
Fixpoint decimalText (s : string) : bool :=
  match s with
  | EmptyString => true
  | String c r => occursIn c "-0123456789" && decimalText r
  end.

(** ** The fallback path *)

Definition allowedExtension (file : TFile) : bool :=
  Main.listIncludes (tfExtension file) Main.imageExtensions
  || Main.listIncludes (tfExtension file) Main.videoExtensions.

(** The object [handleFileCreate] hands to [processUpload]. *)
Definition mobileFileObj (arrayBufferToBase64 : string -> string)
    (file : TFile) (bytes : string) : FileObj :=
  {| name := tfName file;
     type := if Main.listIncludes (tfExtension file) Main.imageExtensions
             then "image/" ++ tfExtension file
             else "video/" ++ tfExtension file;
     base64 := Some (arrayBufferToBase64 bytes);
     size := tfStatSize file;
     instanceofFile := false |}.

Section Fallback.

Context {Editor : Type} `{EditorOps Editor}.
Variable env : Env Editor.

(** The text of the active document when the handler looks at it, after
    the delay, names the file. *)
Definition documentNamesFile (file : TFile) (e : Editor) : bool :=
  includes (tfName file) (getValue (editsWhileSettling env e)).

(** The call of [processUpload] that [handleFileCreate] makes, when it
    gets that far: its first argument and the world it starts in. *)
Definition uploadAttempt (arrayBufferToBase64 : string -> string)
    (activeLeaf : option string) (file : TFile) (w : World Editor)
    : option (FileObj * World Editor) :=
  if allowedExtension file then
    match activeLeaf with
    | Some viewType =>
        if String.eqb viewType "markdown" then
          if documentNamesFile file (editor w) then
            match lookupFile (tfPath file) (vault w) with
            | Some bytes =>
                Some (mobileFileObj arrayBufferToBase64 file bytes,
                      {| editor :=
                           editsWhileReadingVault env
                             (editsWhileSettling env (editor w));
                         vault := vault w;
                         effects :=
                           (effects w
                            ++ [Notice (MobileUploadDetected (tfName file));
                                VaultReadBinary (tfPath file)])%list |})
            | None => None
            end
          else None
        else None
    | None => None
    end
  else None.

End Fallback.



(* ================================================================== *)
(** * The configuration store and its form *)
(* ================================================================== *)

(** The settings object, the data file of the plugin and the settings
    tab, as both source files have them.  An object with string values
    is a partial map from keys to strings. *)
Module SettingsStore.

Definition JsObject : Type := string -> option string.

(** [{}] *)
Definition emptyObject : JsObject := fun _ => None.

(** [o[k] = v] *)
Definition setProperty (k v : string) (o : JsObject) : JsObject :=
  fun k' => if String.eqb k' k then Some v else o k'.

(** [Object.assign(target, source)] *)
Definition assign (target source : JsObject) : JsObject :=
  fun k =>
    match source k with
    | Some v => Some v
    | None => target k
    end.

Definition DEFAULT_SETTINGS : JsObject :=
  setProperty "branch" "main"
    (setProperty "folderPath" ""
       (setProperty "githubToken" ""
          (setProperty "githubRepo" ""
             (setProperty "githubUser" "" emptyObject)))).

(** [this.settings] and what [loadData] finds: [None] when nothing has
    been saved yet. *)
Record Plugin := {
  settings : JsObject;
  data : option JsObject
}.

(** [Object.assign({}, DEFAULT_SETTINGS, await this.loadData())]; a
    source that is [null] is skipped. *)
Definition loadSettings (p : Plugin) : Plugin :=
  {| settings :=
       assign (assign emptyObject DEFAULT_SETTINGS)
         (match data p with
          | Some stored => stored
          | None => emptyObject
          end);
     data := data p |}.

(** [this.saveData(this.settings)] *)
Definition saveSettings (p : Plugin) : Plugin :=
  {| settings := settings p; data := Some (settings p) |}.

(** The five fields the handlers read; [None] when one of them is
    [undefined]. *)
Definition readSettings (o : JsObject) : option Settings :=
  match o "githubUser", o "githubRepo", o "githubToken", o "folderPath", o "branch" with
  | Some user, Some repo, Some token, Some folder, Some branch =>
      Some {| githubUser := user; githubRepo := repo; githubToken := token;
              folderPath := folder; branch := branch |}
  | _, _, _, _, _ => None
  end.

(** One text input of the settings tab. *)
Record TextSetting := {
  settingName : string;
  settingDesc : option string;
  textPlaceholder : option string;
  textValue : option string;
  onChange : string -> Plugin -> Plugin
}.

(** [this.plugin.settings[key] = v; await this.plugin.saveSettings()] *)
Definition change (key : string) (v : string) (p : Plugin) : Plugin :=
  saveSettings {| settings := setProperty key v (settings p); data := data p |}.

(** [display]: the heading and the five inputs, in the order of the
    source. *)
Definition heading : string := "GitHub Media Uploader Settings".

Definition display (p : Plugin) : list TextSetting :=
  [ {| settingName := "GitHub Username"; settingDesc := None;
       textPlaceholder := None;
       textValue := settings p "githubUser";
       onChange := change "githubUser" |};
    {| settingName := "Repository Name"; settingDesc := None;
       textPlaceholder := None;
       textValue := settings p "githubRepo";
       onChange := change "githubRepo" |};
    {| settingName := "Branch"; settingDesc := Some "Usually main";
       textPlaceholder := None;
       textValue := settings p "branch";
       onChange := change "branch" |};
    {| settingName := "Folder Path";
       settingDesc := Some ("e.g. " ++ dquote ++ "assets" ++ dquote
                            ++ ". Leave empty for root.");
       textPlaceholder := None;
       textValue := settings p "folderPath";
       onChange := change "folderPath" |};
    {| settingName := "GitHub Token";
       settingDesc := Some ("Requires " ++ dquote ++ "repo" ++ dquote ++ " scope.");
       textPlaceholder := Some "ghp_...";
       textValue := settings p "githubToken";
       onChange := change "githubToken" |} ].

End SettingsStore.

(** ** Vocabulary for the store *)

(** The value of key [k] in the data file, or [d] when the file or the
    key is missing. *)
Definition storedOr (p : SettingsStore.Plugin) (k d : string) : string :=
  match SettingsStore.data p with
  | Some stored =>
      match stored k with
      | Some v => v
      | None => d
      end
  | None => d
  end.

(** The settings object holds each of the five fields. *)
Definition complete (o : SettingsStore.JsObject) : bool :=
  match SettingsStore.readSettings o with
  | Some _ => true
  | None => false
  end.

(** [l] with its element at position [i] exchanged for [x]. *)
Fixpoint updateNth {A : Type} (i : nat) (x : A) (l : list A) : list A :=
  match l, i with
  | [], _ => []
  | _ :: rest, O => x :: rest
  | y :: rest, S i' => y :: updateNth i' x rest
  end.

(** ** Vocabulary for the runs *)

(** The effects a run added to those of the world it started in. *)
Definition newEffects {Editor : Type} (w w' : World Editor) : list Effect :=
  skipn (List.length (effects w)) (effects w').

Fixpoint noticesOf (l : list Effect) : list NoticeText :=
  match l with
  | [] => []
  | Notice n :: rest => n :: noticesOf rest
  | _ :: rest => noticesOf rest
  end.

Fixpoint noWhiteSpace (s : string) : bool :=
  match s with
  | EmptyString => true
  | String c r => negb (isWhiteSpace c) && noWhiteSpace r
  end.

(** Concrete inputs, on the [Buffer] editor, for the examples. *)
Module Sample.

Definition settings : Settings :=
  {| githubUser := " alice "; githubRepo := "notes"; githubToken := "ghp_token";
     folderPath := "assets/"; branch := "main" |}.

(** Nothing is typed while the handler waits. *)
Definition quiet (o : RequestOutcome) : Env Buffer :=
  {| nowPlaceholder := 5;
     nowFileName := 7;
     readerResult := Some "data:image/png;base64,QUJD";
     requestOutcome := o;
     editsWhileSettling := fun e => e;
     editsWhileReadingVault := fun e => e;
     editsWhileEncoding := fun e => e;
     editsWhileUploading := fun e => e |}.

Definition created : RequestOutcome := Resolved 201.

Definition serverError : RequestOutcome :=
  Rejected (ErrorObject "Request failed, status 500" (Some 500%Z)).

Definition pasted (name : string) (size : Z) : FileObj :=
  ofFile {| fileName := name; fileType := "image/png"; fileSize := size |}.

Definition picture : TFile :=
  {| tfPath := "attachments/pic.png"; tfName := "pic.png";
     tfExtension := "png"; tfStatSize := 2048 |}.

Definition pictureObj : FileObj :=
  {| name := "pic.png"; type := "image/png"; base64 := Some "QUJD";
     size := 2048; instanceofFile := false |}.

Definition world (text : string) : World Buffer :=
  {| editor := bufferOf text;
     vault := [("attachments/pic.png", "ABC")];
     effects := [] |}.

(** A note with "old" selected between "intro " and " outro". *)
Definition selecting : World Buffer :=
  {| editor := {| textBefore := "intro "; textSelected := "old";
                  textAfter := " outro" |};
     vault := [("attachments/pic.png", "ABC")];
     effects := [] |}.

Definition photo : File :=
  {| fileName := "My Photo.png"; fileType := "image/png"; fileSize := 1000 |}.

Definition textFile : File :=
  {| fileName := "notes.txt"; fileType := "text/plain"; fileSize := 10 |}.

End Sample.

(* ================================================================== *)
(** * Facts about the string operations *)
(* ================================================================== *)

Section StringFacts.


Lemma append_assoc (a b c : string) : (a ++ b) ++ c = a ++ b ++ c.
Proof. induction a as [|x r IH]; simpl; [reflexivity | now rewrite IH]. Qed.

Lemma length_append (a b : string) :
  String.length (a ++ b) = String.length a + String.length b.
Proof. induction a as [|x r IH]; simpl; [reflexivity | now rewrite IH]. Qed.

Lemma append_cancel_l (a b c : string) : a ++ b = a ++ c -> b = c.
Proof.
  induction a as [|x r IH]; simpl; intros E; [exact E|].
  injection E as E. now apply IH.
Qed.

Lemma substring_0_append (a b : string) :
  substring 0 (String.length a) (a ++ b) = a.
Proof. induction a as [|x r IH]; simpl; [now destruct b | now rewrite IH]. Qed.

Lemma from_append (a b : string) : from (String.length a) (a ++ b) = b.
Proof. induction a as [|x r IH]; simpl; [reflexivity | exact IH]. Qed.

Lemma from_add (n m : nat) (s : string) : from (n + m) s = from m (from n s).
Proof.
  revert s; induction n as [|n IH]; intros s; simpl; [reflexivity|].
  destruct s as [|c r]; [now destruct m | apply IH].
Qed.

Lemma substring_from (n : nat) (s : string) :
  n <= String.length s -> substring 0 n s ++ from n s = s.
Proof.
  revert s; induction n as [|n IH]; intros s Hn.
  - now destruct s.
  - destruct s as [|c r]; simpl in *; [lia|].
    rewrite IH by lia. reflexivity.
Qed.

Lemma length_substring_0 (n : nat) (s : string) :
  n <= String.length s -> String.length (substring 0 n s) = n.
Proof.
  revert s; induction n as [|n IH]; intros s Hn.
  - now destruct s.
  - destruct s as [|c r]; simpl in *; [lia|]. rewrite IH by lia. reflexivity.
Qed.

(** ** [prefix] *)

Lemma prefix_append (t r : string) : String.prefix t (t ++ r) = true.
Proof.
  induction t as [|c t IH]; simpl; [now destruct r|].
  destruct (ascii_dec c c) as [_|N]; [exact IH | now elim N].
Qed.

Lemma prefix_split (t s : string) :
  String.prefix t s = true -> s = t ++ from (String.length t) s.
Proof.
  revert s; induction t as [|c t IH]; intros s Hp; simpl.
  - reflexivity.
  - destruct s as [|d r]; simpl in Hp; [discriminate|].
    destruct (ascii_dec c d) as [->|N]; [|discriminate].
    now rewrite <- IH.
Qed.

Lemma prefix_iff (t s : string) :
  String.prefix t s = true <-> exists r, s = t ++ r.
Proof.
  split.
  - intros Hp. eexists. now apply prefix_split.
  - intros [r ->]. apply prefix_append.
Qed.

(** ** [indexOf] and [includes] *)

Lemma indexOf_nil (t : string) :
  indexOf t "" = if String.prefix t "" then Some 0 else None.
Proof. reflexivity. Qed.

Lemma indexOf_cons (t : string) (c : ascii) (r : string) :
  indexOf t (String c r) =
  if String.prefix t (String c r) then Some 0 else option_map S (indexOf t r).
Proof. reflexivity. Qed.

Lemma indexOf_bound (t s : string) (n : nat) :
  indexOf t s = Some n -> n + String.length t <= String.length s.
Proof.
  revert n; induction s as [|c r IH]; intros n;
    [rewrite indexOf_nil | rewrite indexOf_cons].
  - destruct (String.prefix t "") eqn:Hp; [|discriminate].
    intros E; injection E as <-.
    apply prefix_split in Hp. destruct t; simpl in *; [lia | discriminate].
  - destruct (String.prefix t (String c r)) eqn:Hp.
    + intros E; injection E as <-.
      apply prefix_split in Hp. apply (f_equal String.length) in Hp.
      rewrite length_append in Hp. simpl in *. lia.
    + destruct (indexOf t r) as [k|]; simpl; [|discriminate].
      intros E; injection E as <-. specialize (IH k eq_refl). lia.
Qed.

(** The first occurrence splits the string around the pattern. *)
Lemma indexOf_split (t s : string) (n : nat) :
  indexOf t s = Some n ->
  s = substring 0 n s ++ t ++ from (n + String.length t) s.
Proof.
  revert n; induction s as [|c r IH]; intros n;
    [rewrite indexOf_nil | rewrite indexOf_cons].
  - destruct (String.prefix t "") eqn:Hp; [|discriminate].
    intros E; injection E as <-. simpl. now apply prefix_split.
  - destruct (String.prefix t (String c r)) eqn:Hp.
    + intros E; injection E as <-. simpl. now apply prefix_split.
    + destruct (indexOf t r) as [k|] eqn:Hk; simpl; [|discriminate].
      intros E; injection E as <-. simpl. f_equal. now apply IH.
Qed.

(** No occurrence starts before the one [indexOf] finds. *)
Lemma indexOf_first (t s : string) (n : nat) :
  indexOf t s = Some n ->
  forall pre post, s = pre ++ t ++ post -> n <= String.length pre.
Proof.
  revert n; induction s as [|c r IH]; intros n;
    [rewrite indexOf_nil | rewrite indexOf_cons].
  - destruct (String.prefix t ""); [|discriminate].
    intros E; injection E as <-. intros; lia.
  - destruct (String.prefix t (String c r)) eqn:Hp.
    + intros E; injection E as <-. intros; lia.
    + destruct (indexOf t r) as [k|] eqn:Hk; simpl; [|discriminate].
      intros E; injection E as <-. intros pre post Hs.
      destruct pre as [|d pre]; simpl in Hs.
      * rewrite Hs, prefix_append in Hp. discriminate.
      * injection Hs as _ Hs. simpl. specialize (IH k eq_refl pre post Hs). lia.
Qed.

Lemma indexOf_occurrence (pre t post : string) :
  exists n, indexOf t (pre ++ t ++ post) = Some n /\ n <= String.length pre.
Proof.
  induction pre as [|c pre IH].
  - exists 0. split; [|simpl; lia]. change ("" ++ t ++ post) with (t ++ post).
    destruct (t ++ post) eqn:E;
      [rewrite indexOf_nil | rewrite indexOf_cons]; rewrite <- E, prefix_append; reflexivity.
  - change (String c pre ++ t ++ post) with (String c (pre ++ t ++ post)).
    rewrite indexOf_cons.
    destruct (String.prefix t (String c (pre ++ t ++ post))).
    + exists 0. split; [reflexivity | simpl; lia].
    + destruct IH as (n & -> & Hn). exists (S n). split; [reflexivity | simpl; lia].
Qed.

Lemma includes_iff (t s : string) :
  includes t s = true <-> exists pre post, s = pre ++ t ++ post.
Proof.
  unfold includes. split.
  - destruct (indexOf t s) as [n|] eqn:Hn; [|discriminate].
    intros _. exists (substring 0 n s), (from (n + String.length t) s).
    now apply indexOf_split.
  - intros (pre & post & ->).
    destruct (indexOf_occurrence pre t post) as (n & -> & _). reflexivity.
Qed.

Lemma includes_false_iff (t s : string) :
  includes t s = false <-> forall pre post, s <> pre ++ t ++ post.
Proof.
  split.
  - intros Hf pre post E.
    assert (includes t s = true) by (apply includes_iff; eauto). congruence.
  - intros Hn. destruct (includes t s) eqn:Hi; [|reflexivity].
    apply includes_iff in Hi. destruct Hi as (pre & post & E). now elim (Hn pre post).
Qed.

Lemma includes_append (pre t post : string) : includes t (pre ++ t ++ post) = true.
Proof. apply includes_iff; eauto. Qed.


(** ** [replace] *)

Lemma GetSubstitution_literal (matched before after template : string) :
  hasSubstitutionPattern template = false ->
  GetSubstitution matched before after template = template.
Proof.
  induction template as [|c rest IH]; simpl; [reflexivity|].
  intros Hp. apply orb_false_iff in Hp. destruct Hp as [Hc Hrest].
  specialize (IH Hrest).
  destruct (Ascii.eqb c "$") eqn:Ec; simpl in Hc.
  - destruct rest as [|d rest']; [reflexivity|].
    apply orb_false_iff in Hc; destruct Hc as [Hc H4].
    apply orb_false_iff in Hc; destruct Hc as [Hc H3].
    apply orb_false_iff in Hc; destruct Hc as [H1 H2].
    rewrite H1, H2, H3, H4. now rewrite IH.
  - now rewrite IH.
Qed.

Lemma replace_absent (t r s : string) : includes t s = false -> replace t r s = s.
Proof.
  unfold includes, replace. now destruct (indexOf t s).
Qed.

(** With a replacement text free of patterns, [replace] swaps the first
    occurrence for the text and keeps everything around it. *)
Lemma replace_first (t r s : string) :
  includes t s = true ->
  hasSubstitutionPattern r = false ->
  exists pre post,
    s = pre ++ t ++ post /\
    indexOf t s = Some (String.length pre) /\
    replace t r s = pre ++ r ++ post.
Proof.
  unfold includes, replace. destruct (indexOf t s) as [n|] eqn:Hn; [|discriminate].
  intros _ Hr.
  exists (substring 0 n s), (from (n + String.length t) s).
  pose proof (indexOf_bound _ _ _ Hn) as Hb.
  rewrite length_substring_0 by lia.
  rewrite GetSubstitution_literal by exact Hr.
  split; [now apply indexOf_split | split; reflexivity].
Qed.

(** ** [trim] *)

Lemma trimEnd_empty_iff (s : string) : trimEnd s = "" <-> allWhiteSpace s = true.
Proof.
  induction s as [|c r IH]; simpl; [tauto|].
  destruct (isWhiteSpace c); simpl.
  - destruct (trimEnd r) eqn:E; simpl.
    + split; [intros _; now apply IH | reflexivity].
    + split; [discriminate|]. intros Hr. apply IH in Hr. discriminate.
  - split; discriminate.
Qed.

Lemma allWhiteSpace_trimStart (s : string) :
  allWhiteSpace (trimStart s) = allWhiteSpace s.
Proof.
  induction s as [|c r IH]; simpl; [reflexivity|].
  destruct (isWhiteSpace c) eqn:Hc; simpl; [exact IH | now rewrite Hc].
Qed.

(** A setting is empty after trimming exactly when it holds nothing but
    white space. *)
Lemma trim_empty_iff (s : string) : trim s = "" <-> allWhiteSpace s = true.
Proof.
  unfold trim. rewrite trimEnd_empty_iff. now rewrite allWhiteSpace_trimStart.
Qed.

(** ** Texts without a dollar sign *)

Lemma noDollar_append (a b : string) :
  noDollar (a ++ b) = noDollar a && noDollar b.
Proof.
  induction a as [|c r IH]; simpl; [reflexivity|].
  now rewrite IH, andb_assoc.
Qed.

Lemma noDollar_plain (s : string) :
  noDollar s = true -> hasSubstitutionPattern s = false.
Proof.
  induction s as [|c r IH]; simpl; [reflexivity|].
  intros Hs. apply andb_true_iff in Hs. destruct Hs as [Hc Hr].
  apply negb_true_iff in Hc. rewrite Hc. simpl. now apply IH.
Qed.

Lemma noDollar_trimStart (s : string) :
  noDollar s = true -> noDollar (trimStart s) = true.
Proof.
  induction s as [|c r IH]; simpl; [reflexivity|].
  intros Hs. destruct (isWhiteSpace c); [|exact Hs].
  apply andb_true_iff in Hs. now apply IH.
Qed.

Lemma noDollar_trimEnd (s : string) :
  noDollar s = true -> noDollar (trimEnd s) = true.
Proof.
  induction s as [|c r IH]; simpl; [reflexivity|].
  intros Hs. apply andb_true_iff in Hs. destruct Hs as [Hc Hr].
  destruct (isWhiteSpace c && isEmpty (trimEnd r)); [reflexivity|].
  simpl. rewrite Hc. now apply IH.
Qed.

Lemma noDollar_trim (s : string) : noDollar s = true -> noDollar (trim s) = true.
Proof. intros Hs. unfold trim. now apply noDollar_trimEnd, noDollar_trimStart. Qed.

Lemma noDollar_substring_0 (n : nat) (s : string) :
  noDollar s = true -> noDollar (substring 0 n s) = true.
Proof.
  revert s; induction n as [|n IH]; intros s Hs.
  - now destruct s.
  - destruct s as [|c r]; [reflexivity|]. simpl in *.
    apply andb_true_iff in Hs. destruct Hs as [-> Hr]. now apply IH.
Qed.

Lemma noDollar_replaceRuns (inRun : bool) (s : string) :
  noDollar s = true -> noDollar (replaceRuns inRun s) = true.
Proof.
  revert inRun; induction s as [|c r IH]; intros inRun; simpl; [reflexivity|].
  intros Hs. apply andb_true_iff in Hs. destruct Hs as [Hc Hr].
  destruct (isWhiteSpace c).
  - destruct inRun; simpl; now apply IH.
  - simpl. rewrite Hc. now apply IH.
Qed.

Lemma noDollar_uint (d : Decimal.uint) :
  noDollar (NilEmpty.string_of_uint d) = true.
Proof. induction d; simpl; [reflexivity | assumption ..]. Qed.

Lemma noDollar_ofZ (z : Z) : noDollar (ofZ z) = true.
Proof.
  unfold ofZ, NilZero.string_of_int, NilZero.string_of_uint.
  destruct (Z.to_int z) as [d|d]; destruct d; simpl; try reflexivity;
    apply noDollar_uint.
Qed.

End StringFacts.

(* ================================================================== *)
(** * Effects of a run *)
(* ================================================================== *)

Lemma requestsOf_app (a b : list Effect) :
  requestsOf (a ++ b) = (requestsOf a ++ requestsOf b)%list.
Proof.
  induction a as [|x a IH]; simpl; [reflexivity|].
  destruct x; simpl; now rewrite IH.
Qed.

Lemma deletionsOf_app (a b : list Effect) :
  deletionsOf (a ++ b) = (deletionsOf a ++ deletionsOf b)%list.
Proof.
  induction a as [|x a IH]; simpl; [reflexivity|].
  destruct x; simpl; now rewrite IH.
Qed.

Lemma editorWritesOf_app (a b : list Effect) :
  editorWritesOf (a ++ b) = (editorWritesOf a ++ editorWritesOf b)%list.
Proof.
  induction a as [|x a IH]; simpl; [reflexivity|].
  destruct x; simpl; now rewrite IH.
Qed.

(* ================================================================== *)
(** * Runs of the handlers *)
(* ================================================================== *)

Lemma overLimit_iff (size : Z) :
  overLimit size = true <-> (25 * (1024 * 1024) < size)%Z.
Proof.
  unfold overLimit, sizeInMB, Qle_bool, Qdiv, Qmult, Qinv, inject_Z; simpl.
  rewrite negb_true_iff, Z.leb_gt. lia.
Qed.

Lemma overLimit_false_iff (size : Z) :
  overLimit size = false <-> (size <= 25 * (1024 * 1024))%Z.
Proof.
  destruct (overLimit size) eqn:E.
  - apply overLimit_iff in E. split; [discriminate | lia].
  - split; [intros _ | reflexivity].
    destruct (Z_lt_le_dec (25 * (1024 * 1024)) size) as [L|L]; [|exact L].
    apply overLimit_iff in L. congruence.
Qed.

Ltac run :=
  unfold editorSetValue, editorReplaceSelection, editorGetValue, newNotice,
    consoleError, await, updateEditor, emit, tryCatch, bind, ret, throw;
  cbn [fst snd editor vault effects].

Section Runs.

Context {Editor : Type} `{EditorOps Editor}.
Variable settings : Settings.
Variable env : Env Editor.

Lemma app_effects (l : list Effect) (a b : Effect) :
  ((l ++ [a]) ++ [b] = l ++ [a; b])%list.
Proof. now rewrite <- app_assoc. Qed.

(** [uploadToGithub] sends one request and then returns or throws as
    [uploadError] says. *)
Lemma uploadToGithub_run (user repo token branch path : string)
    (content : option string) (w : World Editor) :
  Main.uploadToGithub env user repo token branch path content w =
  (match uploadError (requestOutcome env) with
   | Some e => Throw e
   | None => Normal tt
   end,
   {| editor := editsWhileUploading env (editor w);
      vault := vault w;
      effects :=
        (effects w ++
         [RequestUrl
            {| url := "https://api.github.com/repos/" ++ user ++ "/" ++ repo
                      ++ "/contents/" ++ path;
               method := "PUT";
               authorization := "token " ++ token;
               contentType := "application/json";
               userAgent := "Obsidian-Plugin";
               bodyMessage := "Upload " ++ path;
               bodyContent := content;
               bodyBranch := branch |}])%list |}).
Proof.
  unfold Main.uploadToGithub, Main.requestUrl, uploadError. run.
  destruct (requestOutcome env) as [status|e].
  - destruct (negb (status =? 200)%Z && negb (status =? 201)%Z); [|reflexivity].
    unfold gitHubStatus, hasStatus; reflexivity.
  - destruct (hasStatus e 404); [reflexivity|].
    destruct (hasStatus e 401); [reflexivity|].
    destruct (hasStatus e 413); reflexivity.
Qed.

Variable fileObj : FileObj.
Variable isPasteEvent : bool.
Variable linkToReplace : option string.

Local Abbreviation placeholder := (Main.placeholderOf env fileObj).
Local Abbreviation marker := (failureMarker (name fileObj)).
Local Abbreviation embed := (embedOf settings env fileObj).
Local Abbreviation inserted := (afterInsertion env fileObj isPasteEvent linkToReplace).
Local Abbreviation insertion := (insertionEffects env fileObj isPasteEvent linkToReplace).
Local Abbreviation resolution := (atResolution env fileObj isPasteEvent linkToReplace).
Local Abbreviation upload := (Main.processUpload settings env fileObj isPasteEvent linkToReplace).

Lemma configured_true :
  configured settings = true ->
  isEmpty (trim (githubUser settings)) || isEmpty (trim (githubRepo settings))
  || isEmpty (trim (githubToken settings)) = false.
Proof. unfold configured. now rewrite negb_true_iff. Qed.

Lemma configured_false :
  configured settings = false ->
  isEmpty (trim (githubUser settings)) || isEmpty (trim (githubRepo settings))
  || isEmpty (trim (githubToken settings)) = true.
Proof. unfold configured. now rewrite negb_false_iff. Qed.

Lemma processUpload_oversize (w : World Editor) :
  overLimit (size fileObj) = true ->
  upload w =
  (Normal false,
   {| editor := editor w; vault := vault w;
      effects := (effects w ++ [Notice (FileTooBig (sizeInMB (size fileObj)))])%list |}).
Proof. intros Hbig. unfold Main.processUpload. rewrite Hbig. reflexivity. Qed.

Lemma processUpload_unconfigured (w : World Editor) :
  overLimit (size fileObj) = false ->
  configured settings = false ->
  upload w =
  (Normal false,
   {| editor := editor w; vault := vault w;
      effects := (effects w ++ [Notice ConfigureGitHubSettings])%list |}).
Proof.
  intros Hsize Hcfg. unfold Main.processUpload.
  rewrite Hsize, (configured_false Hcfg). reflexivity.
Qed.

(** The placeholder step on its own. *)
Lemma insertion_run (w : World Editor) :
  (if isPasteEvent then editorReplaceSelection placeholder
   else match linkToReplace with
        | Some link =>
            if truthy link
            then bind editorGetValue
                   (fun current => editorSetValue (replace link placeholder current))
            else ret tt
        | None => ret tt
        end) w =
  (Normal tt,
   {| editor := inserted (editor w); vault := vault w;
      effects := (effects w ++ insertion (editor w))%list |}).
Proof.
  unfold afterInsertion, insertionEffects.
  destruct isPasteEvent; [reflexivity|].
  destruct linkToReplace as [link|]; [destruct (truthy link); [reflexivity|]|];
    run; rewrite app_nil_r; now destruct w.
Qed.

Lemma processUpload_encodingFailure (w : World Editor) :
  overLimit (size fileObj) = false ->
  configured settings = true ->
  needsEncoding fileObj = true ->
  readerResult env = None ->
  let e := atEncodingFailure env fileObj isPasteEvent linkToReplace (editor w) in
  upload w =
  (Normal false,
   {| editor := setValue (replace placeholder marker (getValue e)) e;
      vault := vault w;
      effects :=
        (effects w ++ insertion (editor w)
         ++ [ConsoleError ProgressEvent;
             Notice (UploadFailed "undefined");
             EditorSetValue (replace placeholder marker (getValue e))])%list |}).
Proof.
  intros Hsize Hcfg Henc Hread e. unfold Main.processUpload.
  rewrite Hsize, (configured_true Hcfg). cbv zeta.
  unfold bind at 1. rewrite insertion_run.
  unfold needsEncoding in Henc. rewrite Henc.
  unfold Main.fileToBase64. rewrite Hread. run.
  subst e. unfold atEncodingFailure.
  repeat rewrite <- app_assoc. reflexivity.
Qed.

Lemma processUpload_uploadFailure (w : World Editor) (err : JsValue) :
  overLimit (size fileObj) = false ->
  configured settings = true ->
  (needsEncoding fileObj = true -> readerResult env <> None) ->
  uploadError (requestOutcome env) = Some err ->
  let e := resolution (editor w) in
  upload w =
  (Normal false,
   {| editor := setValue (replace placeholder marker (getValue e)) e;
      vault := vault w;
      effects :=
        (effects w ++ insertion (editor w)
         ++ [RequestUrl (requestOf settings env fileObj);
             ConsoleError err;
             Notice (UploadFailed (messageOf err));
             EditorSetValue (replace placeholder marker (getValue e))])%list |}).
Proof.
  intros Hsize Hcfg Hread Herr e. unfold Main.processUpload.
  rewrite Hsize, (configured_true Hcfg). cbv zeta.
  unfold bind at 1. rewrite insertion_run.
  subst e. unfold atResolution, requestOf, contentOf.
  unfold needsEncoding in *.
  destruct (missing (base64 fileObj) && instanceofFile fileObj).
  - destruct (readerResult env) as [result|] eqn:Hr; [|now elim Hread].
    unfold Main.fileToBase64. rewrite Hr. run.
    rewrite uploadToGithub_run, Herr. cbn [editor vault effects option_map].
    repeat rewrite <- app_assoc. reflexivity.
  - run. rewrite uploadToGithub_run, Herr. cbn [editor vault effects].
    repeat rewrite <- app_assoc. reflexivity.
Qed.

Lemma processUpload_success (w : World Editor) :
  overLimit (size fileObj) = false ->
  configured settings = true ->
  (needsEncoding fileObj = true -> readerResult env <> None) ->
  uploadError (requestOutcome env) = None ->
  let e := resolution (editor w) in
  upload w =
  (Normal true,
   {| editor :=
        if includes placeholder (getValue e)
        then setValue (replace placeholder embed (getValue e)) e
        else replaceSelection embed e;
      vault := vault w;
      effects :=
        (effects w ++ insertion (editor w)
         ++ [RequestUrl (requestOf settings env fileObj);
             if includes placeholder (getValue e)
             then EditorSetValue (replace placeholder embed (getValue e))
             else EditorReplaceSelection embed;
             Notice (Uploaded (remoteFileName (nowFileName env) (name fileObj)))])%list |}).
Proof.
  intros Hsize Hcfg Hread Hok e. unfold Main.processUpload.
  rewrite Hsize, (configured_true Hcfg). cbv zeta.
  unfold bind at 1. rewrite insertion_run.
  subst e. unfold atResolution, requestOf, contentOf, embedOf, pathOf,
    userOf, repoOf, tokenOf, branchOf.
  unfold needsEncoding in *.
  destruct (missing (base64 fileObj) && instanceofFile fileObj).
  - destruct (readerResult env) as [result|] eqn:Hr; [|now elim Hread].
    unfold Main.fileToBase64. rewrite Hr. run.
    rewrite uploadToGithub_run, Hok. cbn [editor vault effects option_map].
    match goal with |- context [includes ?p ?v] => destruct (includes p v) end;
      cbn [editor vault effects]; repeat rewrite <- app_assoc; reflexivity.
  - run. rewrite uploadToGithub_run, Hok. cbn [editor vault effects].
    match goal with |- context [includes ?p ?v] => destruct (includes p v) end;
      cbn [editor vault effects]; repeat rewrite <- app_assoc; reflexivity.
Qed.

Lemma deletionsOf_insertion (e : Editor) : deletionsOf (insertion e) = [].
Proof.
  unfold insertionEffects. destruct isPasteEvent; [reflexivity|].
  destruct linkToReplace as [link|]; [|reflexivity].
  now destruct (truthy link).
Qed.

(** [processUpload] always returns, never deletes from the vault and
    leaves the vault as it is. *)
Lemma processUpload_total (w : World Editor) :
  exists b w',
    upload w = (Normal b, w') /\
    vault w' = vault w /\
    deletionsOf (effects w') = deletionsOf (effects w).
Proof.
  destruct (overLimit (size fileObj)) eqn:Hsize.
  { eexists; eexists. rewrite (processUpload_oversize w Hsize).
    split; [reflexivity|]. cbn [vault effects]. rewrite deletionsOf_app. simpl.
    now rewrite app_nil_r. }
  destruct (configured settings) eqn:Hcfg.
  2:{ eexists; eexists. rewrite (processUpload_unconfigured w Hsize Hcfg).
      split; [reflexivity|]. cbn [vault effects]. rewrite deletionsOf_app. simpl.
      now rewrite app_nil_r. }
  assert (Encoded : (needsEncoding fileObj = true /\ readerResult env = None)
                    \/ (needsEncoding fileObj = true -> readerResult env <> None)).
  { destruct (needsEncoding fileObj); [|right; discriminate].
    destruct (readerResult env); [right; discriminate | left; auto]. }
  destruct Encoded as [[Henc Hread]|Hread].
  { eexists; eexists. rewrite (processUpload_encodingFailure w Hsize Hcfg Henc Hread).
    split; [reflexivity|]. cbn [vault effects].
    rewrite !deletionsOf_app, deletionsOf_insertion. simpl. now rewrite app_nil_r. }
  destruct (uploadError (requestOutcome env)) as [err|] eqn:Herr.
  - eexists; eexists. rewrite (processUpload_uploadFailure w err Hsize Hcfg Hread Herr).
    split; [reflexivity|]. cbn [vault effects].
    rewrite !deletionsOf_app, deletionsOf_insertion. simpl. now rewrite app_nil_r.
  - eexists; eexists. rewrite (processUpload_success w Hsize Hcfg Hread Herr).
    split; [reflexivity|]. cbn [vault effects].
    rewrite !deletionsOf_app, deletionsOf_insertion.
    match goal with |- context [includes ?p ?v] => destruct (includes p v) end;
      simpl; now rewrite app_nil_r.
Qed.

End Runs.

(* ================================================================== *)
(** * Rejections before anything is written *)
(* ================================================================== *)

Section Rejections.

Context {Editor : Type} `{EditorOps Editor}.
Variable settings : Settings.
Variable env : Env Editor.
Variable fileObj : FileObj.
Variable isPasteEvent : bool.
Variable linkToReplace : option string.
Variable w : World Editor.

(** C2. An item of more than 25 MiB is turned away by [processUpload]:
    the call returns [false], its only effect is the notice that the
    file is too big, so no request is sent and the editor is not
    written; the editor and the vault are as before. *)
Theorem oversize_item_rejected :
  (25 * (1024 * 1024) < size fileObj)%Z ->
  let r := Main.processUpload settings env fileObj isPasteEvent linkToReplace w in
  fst r = Normal false /\
  effects (snd r) = (effects w ++ [Notice (FileTooBig (sizeInMB (size fileObj)))])%list /\
  requestsOf (effects (snd r)) = requestsOf (effects w) /\
  editorWritesOf (effects (snd r)) = editorWritesOf (effects w) /\
  editor (snd r) = editor w /\
  vault (snd r) = vault w.
Proof.
  intros Hbig r. subst r.
  rewrite processUpload_oversize by now apply overLimit_iff.
  cbn [fst snd editor vault effects].
  rewrite requestsOf_app, editorWritesOf_app. simpl. rewrite !app_nil_r.
  repeat split.
Qed.

(** C3, amended.  For an item within the size limit, when the user, the
    repository or the token is empty after trimming, [processUpload]
    returns [false], its only effect is the notice asking to configure
    the settings, so no request is sent and the editor is not written;
    the editor and the vault are as before. *)
Theorem missing_configuration_rejected :
  (size fileObj <= 25 * (1024 * 1024))%Z ->
  trim (githubUser settings) = "" \/ trim (githubRepo settings) = ""
  \/ trim (githubToken settings) = "" ->
  let r := Main.processUpload settings env fileObj isPasteEvent linkToReplace w in
  fst r = Normal false /\
  effects (snd r) = (effects w ++ [Notice ConfigureGitHubSettings])%list /\
  requestsOf (effects (snd r)) = requestsOf (effects w) /\
  editorWritesOf (effects (snd r)) = editorWritesOf (effects w) /\
  editor (snd r) = editor w /\
  vault (snd r) = vault w.
Proof.
  intros Hsize Hmissing r. subst r.
  rewrite processUpload_unconfigured.
  - cbn [fst snd editor vault effects].
    rewrite requestsOf_app, editorWritesOf_app. simpl. rewrite !app_nil_r.
    repeat split.
  - now apply overLimit_false_iff.
  - unfold configured. apply negb_false_iff.
    destruct Hmissing as [E|[E|E]]; rewrite E; simpl;
      rewrite ?orb_true_r; reflexivity.
Qed.

End Rejections.

Lemma oversize_item_rejected_witness :
  let r := Main.processUpload Sample.settings (Sample.quiet Sample.created)
             (Sample.pasted "big.png" 30000000) true None (Sample.world "note") in
  fst r = Normal false /\
  effects (snd r) = [Notice (FileTooBig (sizeInMB 30000000))] /\
  requestsOf (effects (snd r)) = [] /\
  editorWritesOf (effects (snd r)) = [] /\
  editor (snd r) = bufferOf "note" /\
  vault (snd r) = [("attachments/pic.png", "ABC")].
Proof.
  apply (oversize_item_rejected Sample.settings (Sample.quiet Sample.created)
           (Sample.pasted "big.png" 30000000) true None (Sample.world "note")).
  simpl. lia.
Defined.

Lemma missing_configuration_rejected_witness :
  let r := Main.processUpload DEFAULT_SETTINGS (Sample.quiet Sample.created)
             (Sample.pasted "a.png" 1000) true None (Sample.world "note") in
  fst r = Normal false /\
  effects (snd r) = [Notice ConfigureGitHubSettings] /\
  requestsOf (effects (snd r)) = [] /\
  editorWritesOf (effects (snd r)) = [] /\
  editor (snd r) = bufferOf "note" /\
  vault (snd r) = [("attachments/pic.png", "ABC")].
Proof.
  apply (missing_configuration_rejected DEFAULT_SETTINGS (Sample.quiet Sample.created)
           (Sample.pasted "a.png" 1000) true None (Sample.world "note")).
  - simpl. lia.
  - left. reflexivity.
Defined.

(** C3 as stated fails on an item that is also too big: the size is
    checked first, so the run ends with the notice about the size and
    never mentions the settings. *)
Lemma missing_configuration_counterexample :
  let r := Main.processUpload DEFAULT_SETTINGS (Sample.quiet Sample.created)
             (Sample.pasted "big.png" 30000000) true None (Sample.world "note") in
  trim (githubUser DEFAULT_SETTINGS) = "" /\
  effects (snd r) = [Notice (FileTooBig (sizeInMB 30000000))] /\
  ~ In (Notice ConfigureGitHubSettings) (effects (snd r)).
Proof.
  cbv zeta. split; [reflexivity|]. split; [reflexivity|].
  simpl. intros [E|[]]. discriminate E.
Qed.

(* ================================================================== *)
(** * Translation of HTTP failures *)
(* ================================================================== *)

Section StatusMapping.

Context {Editor : Type} `{EditorOps Editor}.
Variable env : Env Editor.
Variables user repo token branch path : string.
Variable content : option string.
Variable w : World Editor.


(** Without the host's contract the translation is tied to the thrown
    error, not to the response: a 404 that came back as a response
    would surface with the generic message. *)
Remark returned_404_is_generic :
  requestOutcome env = Resolved 404 ->
  fst (Main.uploadToGithub env user repo token branch path content w)
  = Throw (gitHubStatus 404).
Proof. intros Ho. rewrite uploadToGithub_run, Ho. reflexivity. Qed.

End StatusMapping.


(* ================================================================== *)
(** * The remote path *)
(* ================================================================== *)

Lemma endsWith_slash_cons (c d : ascii) (r : string) :
  endsWith "/" (String c (String d r)) = endsWith "/" (String d r).
Proof.
  unfold endsWith. cbn [String.length Nat.leb Nat.sub andb].
  rewrite !Nat.sub_0_r. reflexivity.
Qed.

Lemma dropLast_cons (c d : ascii) (r : string) :
  dropLast (String c (String d r)) = String c (dropLast (String d r)).
Proof.
  unfold dropLast. cbn [String.length Nat.sub]. rewrite !Nat.sub_0_r. reflexivity.
Qed.

(** The test and the slice of the source strip exactly one trailing
    slash. *)
Lemma strip_slash (s : string) :
  (if endsWith "/" s then dropLast s else s) = stripTrailingSlash s.
Proof.
  induction s as [|c r IH]; [reflexivity|].
  destruct r as [|d r'].
  - unfold endsWith, dropLast. simpl.
    destruct (ascii_dec c "/") as [->|N].
    + reflexivity.
    + assert (E : Ascii.eqb c "/" = false) by now apply Ascii.eqb_neq.
      rewrite E. simpl.
      destruct (String.eqb_spec (String c "") "/") as [E'|_]; [|reflexivity].
      injection E' as ->. now elim N.
  - rewrite endsWith_slash_cons, dropLast_cons.
    assert (E : stripTrailingSlash (String c (String d r'))
                = String c (stripTrailingSlash (String d r'))).
    { simpl. now rewrite andb_false_r. }
    rewrite E, <- IH. now destruct (endsWith "/" (String d r')).
Qed.

Lemma remoteFolder_strip (folderPath : string) :
  remoteFolder folderPath = stripTrailingSlash (trim folderPath).
Proof. unfold remoteFolder. apply strip_slash. Qed.

(** [replaceRuns] on a text that begins inside a run, and the relation
    of the specification for the text as a whole. *)
Lemma replaceRuns_spec (s : string) :
  RunsReplaced s (replaceRuns false s) /\
  exists run rest,
    s = run ++ rest /\ allWhiteSpace run = true /\
    startsWithWhiteSpace rest = false /\
    replaceRuns true s = replaceRuns false rest /\
    RunsReplaced rest (replaceRuns false rest).
Proof.
  induction s as [|c r [IH1 (run & rest & Er & Hrun & Hrest & Eq & Hrel)]].
  - split; [constructor|]. exists "", "". repeat split; constructor.
  - assert (First : RunsReplaced (String c r) (replaceRuns false (String c r))).
    { cbn [replaceRuns]. destruct (isWhiteSpace c) eqn:Hc.
      - rewrite Eq, Er. now constructor.
      - now constructor. }
    split; [exact First|].
    cbn [replaceRuns]. destruct (isWhiteSpace c) eqn:Hc.
    + exists (String c run), rest. cbn [allWhiteSpace]. rewrite Hc, Hrun.
      subst r. repeat split; assumption.
    + exists "", (String c r). cbn [startsWithWhiteSpace replaceRuns]. rewrite Hc.
      repeat split. now constructor.
Qed.

Lemma replaceRuns_skip (run s : string) :
  allWhiteSpace run = true ->
  replaceRuns true (run ++ s) = replaceRuns true s.
Proof.
  induction run as [|c run IH]; simpl; [reflexivity|].
  intros Hrun. apply andb_true_iff in Hrun. destruct Hrun as [Hc Hrun].
  rewrite Hc. now apply IH.
Qed.

Lemma replaceRuns_restart (s : string) :
  startsWithWhiteSpace s = false -> replaceRuns true s = replaceRuns false s.
Proof. destruct s as [|c r]; simpl; [reflexivity|]. now intros ->. Qed.

(** The relation has one outcome, the one the source computes. *)
Lemma RunsReplaced_unique (s t : string) :
  RunsReplaced s t -> t = replaceWhiteSpaceRuns s.
Proof.
  unfold replaceWhiteSpaceRuns.
  induction 1 as [|c s t Hc _ IH|c run s t Hc Hrun Hs _ IH]; cbn [replaceRuns].
  - reflexivity.
  - now rewrite Hc, IH.
  - rewrite Hc, replaceRuns_skip, replaceRuns_restart, IH by assumption. reflexivity.
Qed.

(** C5, amended.  The remote path is the time stamp, a hyphen and the
    name with every white space run replaced by one hyphen; when the
    trimmed folder with one trailing slash stripped is not empty, that
    folder and a slash come first, and when it is empty nothing comes
    first.  The name "My Photo.png" under the folder "assets/" at time
    [T] gives assets/T-My-Photo.png. *)
Theorem remote_path_shape (folderPath name : string) (T : Z) :
  remotePath folderPath (remoteFileName T name)
  = (if isEmpty (stripTrailingSlash (trim folderPath))
     then ofZ T ++ "-" ++ replaceWhiteSpaceRuns name
     else statedPath (trim folderPath) name T)
  /\ RunsReplaced name (replaceWhiteSpaceRuns name)
  /\ remotePath "assets/" (remoteFileName T "My Photo.png")
     = "assets/" ++ ofZ T ++ "-My-Photo.png".
Proof.
  split; [|split].
  - unfold remotePath, statedPath, remoteFileName, truthy.
    rewrite remoteFolder_strip.
    now destruct (isEmpty (stripTrailingSlash (trim folderPath))).
  - apply replaceRuns_spec.
  - unfold remotePath, remoteFileName.
    change (remoteFolder "assets/") with "assets".
    change (replaceWhiteSpaceRuns "My Photo.png") with "My-Photo.png".
    reflexivity.
Qed.

(** C5 as stated fails for the default, empty folder: the source leaves
    out the slash, the stated path begins with one. *)
Lemma remote_path_counterexample :
  folderPath DEFAULT_SETTINGS = "" /\
  remotePath "" (remoteFileName 1700000000000 "My Photo.png")
  = "1700000000000-My-Photo.png" /\
  statedPath (trim "") "My Photo.png" 1700000000000
  = "/1700000000000-My-Photo.png" /\
  remotePath "" (remoteFileName 1700000000000 "My Photo.png")
  <> statedPath (trim "") "My Photo.png" 1700000000000.
Proof.
  split; [reflexivity|]. split; [reflexivity|]. split; [reflexivity|].
  vm_compute. discriminate.
Qed.

(* ================================================================== *)
(** * The fallback path *)
(* ================================================================== *)

Section FallbackRuns.

Context {Editor : Type} `{EditorOps Editor}.
Variable settings : Settings.
Variable env : Env Editor.
Variable arrayBufferToBase64 : string -> string.
Variable activeLeaf : option string.
Variable file : TFile.
Variable w : World Editor.

Local Abbreviation handler :=
  (Main.handleFileCreate settings env arrayBufferToBase64 activeLeaf file).

Lemma allowedExtension_false :
  allowedExtension file = false ->
  negb (Main.listIncludes (tfExtension file) Main.imageExtensions)
  && negb (Main.listIncludes (tfExtension file) Main.videoExtensions) = true.
Proof.
  unfold allowedExtension. intros E. apply orb_false_iff in E.
  destruct E as [-> ->]. reflexivity.
Qed.

Lemma allowedExtension_true :
  allowedExtension file = true ->
  negb (Main.listIncludes (tfExtension file) Main.imageExtensions)
  && negb (Main.listIncludes (tfExtension file) Main.videoExtensions) = false.
Proof.
  unfold allowedExtension. intros E. apply orb_true_iff in E.
  destruct E as [-> | ->]; [reflexivity | apply andb_false_r].
Qed.

(** C7. A created file is processed only if its extension is on the
    list and the text of the active document names it: when either
    fails, [handleFileCreate] returns with no effect at all (no notice,
    no read or delete in the vault, no write to the editor, no request),
    the vault is as before, and the editor is as the host left it. *)
Theorem fallback_gate :
  allowedExtension file && documentNamesFile env file (editor w) = false ->
  let r := handler w in
  fst r = Normal tt /\
  effects (snd r) = effects w /\
  vault (snd r) = vault w /\
  (editor (snd r) = editor w
   \/ editor (snd r) = editsWhileSettling env (editor w)).
Proof.
  intros Hgate r. subst r. unfold Main.handleFileCreate.
  destruct (allowedExtension file) eqn:Hext.
  - rewrite (allowedExtension_true Hext).
    destruct activeLeaf as [viewType|]; [|run; auto].
    destruct (negb (viewType =? "markdown")%string); [run; auto|].
    simpl in Hgate. unfold documentNamesFile in Hgate.
    run. rewrite Hgate. cbn [negb fst snd editor vault effects]. auto.
  - rewrite (allowedExtension_false Hext). run. auto.
Qed.

(** C10. The file of the vault is deleted only when [processUpload]
    reports success.  Whenever [handleFileCreate] gets as far as calling
    [processUpload], that call returns a boolean without touching the
    vault; when it is [true] the handler ends by deleting the file, and
    when it is [false] (the upload failed or was rejected) the handler
    ends there, with the vault as it was and nothing deleted.  When the
    handler does not get that far, the vault is as it was too. *)
Theorem vault_file_deleted_only_on_success :
  let r := handler w in
  match uploadAttempt env arrayBufferToBase64 activeLeaf file w with
  | Some (fileObj, w1) =>
      exists b w2,
        Main.processUpload settings env fileObj false
          (Some ("![[" ++ tfName file ++ "]]")) w1 = (Normal b, w2) /\
        vault w2 = vault w /\
        deletionsOf (effects w2) = deletionsOf (effects w) /\
        r = (Normal tt,
             if b
             then {| editor := editor w2;
                     vault := removeFile (tfPath file) (vault w);
                     effects := (effects w2 ++ [VaultDelete (tfPath file)])%list |}
             else w2)
  | None =>
      vault (snd r) = vault w /\
      deletionsOf (effects (snd r)) = deletionsOf (effects w)
  end.
Proof.
  intros r. subst r. unfold uploadAttempt, Main.handleFileCreate.
  destruct (allowedExtension file) eqn:Hext.
  2:{ rewrite (allowedExtension_false Hext). run. auto. }
  rewrite (allowedExtension_true Hext).
  destruct activeLeaf as [viewType|]; [|run; auto].
  destruct (viewType =? "markdown")%string; cbn [negb]; [|run; auto].
  unfold documentNamesFile. run.
  destruct (includes (tfName file) (getValue (editsWhileSettling env (editor w))));
    cbn [negb fst snd editor vault effects]; [|auto].
  unfold vaultReadBinary. run.
  destruct (lookupFile (tfPath file) (vault w)) as [bytes|] eqn:Hfile.
  2:{ cbn [fst snd vault effects]. rewrite !deletionsOf_app. simpl.
      rewrite !app_nil_r. auto. }
  rewrite app_effects. unfold mobileFileObj.
  match goal with
  | |- context [Main.processUpload settings env ?fo false ?l ?w1] =>
      destruct (processUpload_total settings env fo false l w1)
        as (b & w2 & Hrun & Hvault & Hdel)
  end.
  cbn [vault effects] in Hvault, Hdel.
  rewrite !deletionsOf_app in Hdel. simpl in Hdel. rewrite app_nil_r in Hdel.
  exists b, w2. rewrite Hrun. repeat split; try assumption.
  destruct b; [|reflexivity].
  unfold vaultDelete. run. now rewrite Hvault.
Qed.

End FallbackRuns.

Lemma fallback_gate_witness :
  let r := Main.handleFileCreate Sample.settings (Sample.quiet Sample.created)
             (fun bytes => bytes) (Some "markdown") Sample.picture
             (Sample.world "no embed here") in
  fst r = Normal tt /\
  effects (snd r) = [] /\
  vault (snd r) = [("attachments/pic.png", "ABC")] /\
  (editor (snd r) = bufferOf "no embed here"
   \/ editor (snd r) = bufferOf "no embed here").
Proof.
  apply (fallback_gate Sample.settings (Sample.quiet Sample.created)
           (fun bytes => bytes) (Some "markdown") Sample.picture
           (Sample.world "no embed here")).
  reflexivity.
Defined.

(* ================================================================== *)
(** * Replacement texts without patterns *)
(* ================================================================== *)

Section PlainTexts.

Context {Editor : Type}.
Variable settings : Settings.
Variable env : Env Editor.
Variable fileObj : FileObj.

Lemma noDollar_remoteFolder (folderPath : string) :
  noDollar folderPath = true -> noDollar (remoteFolder folderPath) = true.
Proof.
  intros Hf. unfold remoteFolder, dropLast.
  destruct (endsWith "/" (trim folderPath));
    [apply noDollar_substring_0|]; now apply noDollar_trim.
Qed.

Lemma noDollar_pathOf :
  noDollar (folderPath settings) = true ->
  noDollar (name fileObj) = true ->
  noDollar (pathOf settings env fileObj) = true.
Proof.
  intros Hf Hn. unfold pathOf, remotePath, remoteFileName.
  assert (Hfile : noDollar (ofZ (nowFileName env) ++ "-"
                            ++ replaceWhiteSpaceRuns (name fileObj)) = true).
  { rewrite !noDollar_append, noDollar_ofZ. simpl.
    now apply noDollar_replaceRuns. }
  destruct (truthy (remoteFolder (folderPath settings))); [|exact Hfile].
  rewrite (noDollar_append (remoteFolder (folderPath settings))).
  rewrite (noDollar_append "/"), Hfile, noDollar_remoteFolder by exact Hf.
  reflexivity.
Qed.

(** When neither the settings nor the name hold a dollar sign, the embed
    holds no pattern. *)
Lemma embedOf_plain :
  noDollar (githubUser settings) = true ->
  noDollar (githubRepo settings) = true ->
  noDollar (branch settings) = true ->
  noDollar (folderPath settings) = true ->
  noDollar (name fileObj) = true ->
  hasSubstitutionPattern (embedOf settings env fileObj) = false.
Proof.
  intros Hu Hr Hb Hf Hn. apply noDollar_plain.
  assert (Hurl : noDollar (rawUrlOf (userOf settings) (repoOf settings)
                             (branchOf settings) (pathOf settings env fileObj)) = true).
  { unfold rawUrlOf, userOf, repoOf, branchOf.
    rewrite !noDollar_append, !noDollar_trim, noDollar_pathOf by assumption.
    reflexivity. }
  unfold embedOf, Main.embedCodeOf, imageEmbed, videoEmbed.
  destruct (startsWith "image/" (type fileObj));
    rewrite !noDollar_append, Hurl; reflexivity.
Qed.

Lemma placeholderOf_plain :
  noDollar (name fileObj) = true ->
  hasSubstitutionPattern (Main.placeholderOf env fileObj) = false.
Proof.
  intros Hn. apply noDollar_plain. unfold Main.placeholderOf.
  rewrite !noDollar_append, Hn, noDollar_ofZ. reflexivity.
Qed.

Lemma failureMarker_plain :
  noDollar (name fileObj) = true ->
  hasSubstitutionPattern (failureMarker (name fileObj)) = false.
Proof.
  intros Hn. apply noDollar_plain. unfold failureMarker.
  rewrite !noDollar_append, Hn. reflexivity.
Qed.

End PlainTexts.

(* ================================================================== *)
(** * Resolution of the placeholder *)
(* ================================================================== *)

Lemma put_succeeded (o : RequestOutcome) :
  o = Resolved 200 \/ o = Resolved 201 -> uploadError o = None.
Proof. intros [-> | ->]; reflexivity. Qed.

Section Resolution.

Context {Editor : Type} `{EditorOps Editor}.
Variable settings : Settings.
Variable env : Env Editor.
Variable fileObj : FileObj.
Variable isPasteEvent : bool.
Variable linkToReplace : option string.
Variable w : World Editor.

Local Abbreviation placeholder := (Main.placeholderOf env fileObj).
Local Abbreviation embed := (embedOf settings env fileObj).
Local Abbreviation resolved :=
  (atResolution env fileObj isPasteEvent linkToReplace (editor w)).
Local Abbreviation upload :=
  (Main.processUpload settings env fileObj isPasteEvent linkToReplace).

Hypothesis within_limit : (size fileObj <= 25 * (1024 * 1024))%Z.
Hypothesis settings_present : configured settings = true.
Hypothesis encoded : needsEncoding fileObj = true -> readerResult env <> None.

(** C1, amended.  When the PUT is answered with 200 or 201 and the
    document then contains the placeholder, the first occurrence of the
    placeholder is exchanged for the embed and the text around it is
    kept, provided the embed holds none of the patterns that [replace]
    expands.  The embed is the image markup around the raw URL when the
    MIME type starts with image/, and the video tag around it
    otherwise; the raw URL is
    https://raw.githubusercontent.com/user/repo/branch/path. *)
Theorem placeholder_resolved_to_embed :
  requestOutcome env = Resolved 200 \/ requestOutcome env = Resolved 201 ->
  includes placeholder (getValue resolved) = true ->
  hasSubstitutionPattern embed = false ->
  let r := upload w in
  let rawUrl :=
    "https://raw.githubusercontent.com/" ++ trim (githubUser settings)
    ++ "/" ++ trim (githubRepo settings) ++ "/" ++ trim (branch settings)
    ++ "/" ++ pathOf settings env fileObj in
  fst r = Normal true /\
  embed = (if startsWith "image/" (type fileObj)
           then "![](" ++ rawUrl ++ ")"
           else "<video src=" ++ dquote ++ rawUrl ++ dquote ++ " controls></video>") /\
  exists pre post,
    getValue resolved = pre ++ placeholder ++ post /\
    indexOf placeholder (getValue resolved) = Some (String.length pre) /\
    getValue (editor (snd r)) = pre ++ embed ++ post.
Proof.
  intros Hput Hpresent Hplain r rawUrl. subst r rawUrl.
  rewrite processUpload_success;
    [| now apply overLimit_false_iff | assumption | assumption
     | now apply put_succeeded].
  cbn [fst snd editor]. rewrite Hpresent.
  split; [reflexivity|]. split; [reflexivity|].
  destruct (replace_first placeholder embed (getValue resolved) Hpresent Hplain)
    as (pre & post & Hdoc & Hfirst & Hnew).
  exists pre, post. rewrite getValue_setValue. auto.
Qed.

(** C9. When the PUT is answered with 200 or 201 and the document no
    longer contains the placeholder, the embed is put in place of the
    current selection: the new text is the text before the selection,
    the embed, and the text after it.  The call still returns [true] and
    announces the upload. *)
Theorem embed_inserted_at_selection :
  requestOutcome env = Resolved 200 \/ requestOutcome env = Resolved 201 ->
  includes placeholder (getValue resolved) = false ->
  let r := upload w in
  fst r = Normal true /\
  editor (snd r) = replaceSelection embed resolved /\
  getValue (editor (snd r))
  = beforeSelection resolved ++ embed ++ afterSelection resolved /\
  effects (snd r)
  = (effects w
     ++ insertionEffects env fileObj isPasteEvent linkToReplace (editor w)
     ++ [RequestUrl (requestOf settings env fileObj);
         EditorReplaceSelection embed;
         Notice (Uploaded (remoteFileName (nowFileName env) (name fileObj)))])%list.
Proof.
  intros Hput Habsent r. subst r.
  rewrite processUpload_success;
    [| now apply overLimit_false_iff | assumption | assumption
     | now apply put_succeeded].
  cbn [fst snd editor effects]. rewrite Habsent.
  repeat split. apply getValue_replaceSelection.
Qed.

(** A failed upload whose placeholder is still in the document, for a
    name free of patterns: the first occurrence of the placeholder makes
    room for the failure marker, which contains the name. *)
Lemma failure_marker_written (err : JsValue) :
  uploadError (requestOutcome env) = Some err ->
  includes placeholder (getValue resolved) = true ->
  hasSubstitutionPattern (failureMarker (name fileObj)) = false ->
  let r := upload w in
  fst r = Normal false /\
  includes (name fileObj) (failureMarker (name fileObj)) = true /\
  exists pre post,
    getValue resolved = pre ++ placeholder ++ post /\
    getValue (editor (snd r)) = pre ++ failureMarker (name fileObj) ++ post.
Proof.
  intros Herr Hpresent Hplain r. subst r.
  rewrite (processUpload_uploadFailure settings env fileObj isPasteEvent
             linkToReplace w err);
    [| now apply overLimit_false_iff | assumption | assumption | assumption].
  cbn [fst snd editor]. split; [reflexivity|].
  split; [apply includes_append|].
  destruct (replace_first placeholder (failureMarker (name fileObj))
              (getValue resolved) Hpresent Hplain)
    as (pre & post & Hdoc & _ & Hnew).
  exists pre, post. rewrite getValue_setValue. auto.
Qed.

End Resolution.

Lemma placeholder_resolved_to_embed_witness :
  let r := Main.processUpload Sample.settings (Sample.quiet Sample.created)
             (Sample.pasted "My Photo.png" 1000) true None (Sample.world "hello") in
  fst r = Normal true /\
  exists pre post,
    "![Uploading My Photo.png...](5)hello"
    = pre ++ "![Uploading My Photo.png...](5)" ++ post /\
    getValue (editor (snd r))
    = pre ++ "![](https://raw.githubusercontent.com/alice/notes/main/assets/7-My-Photo.png)"
      ++ post.
Proof.
  destruct (placeholder_resolved_to_embed Sample.settings (Sample.quiet Sample.created)
              (Sample.pasted "My Photo.png" 1000) true None (Sample.world "hello"))
    as (Hret & _ & pre & post & Hdoc & _ & Hnew).
  - simpl. lia.
  - reflexivity.
  - intros _. discriminate.
  - right. reflexivity.
  - reflexivity.
  - reflexivity.
  - split; [exact Hret|]. exists pre, post. split; [exact Hdoc | exact Hnew].
Defined.

(** C1 as stated fails on the fallback path when the note refers to the
    file with a markdown link: the text names the file, so the upload
    starts, but there is no [![[pic.png]]] to exchange for the
    placeholder.  The PUT succeeds, the document never held the
    placeholder, and the embed lands at the cursor. *)
Lemma placeholder_resolved_counterexample :
  let env := Sample.quiet Sample.created in
  let w := Sample.world "see ![](pic.png) here" in
  let r := Main.processUpload Sample.settings env Sample.pictureObj false
             (Some "![[pic.png]]") w in
  let before := getValue (atResolution env Sample.pictureObj false
                            (Some "![[pic.png]]") (editor w)) in
  requestOutcome env = Resolved 201 /\
  fst r = Normal true /\
  before = "see ![](pic.png) here" /\
  getValue (editor (snd r))
  = "![](https://raw.githubusercontent.com/alice/notes/main/assets/7-pic.png)see ![](pic.png) here" /\
  ~ replacedOnce (Main.placeholderOf env Sample.pictureObj)
      (embedOf Sample.settings env Sample.pictureObj)
      before (getValue (editor (snd r))).
Proof.
  cbv zeta. repeat (split; [reflexivity|]).
  intros (pre & post & Hdoc & _).
  assert (Habsent : includes "![Uploading pic.png...](5)" "see ![](pic.png) here" = false)
    by reflexivity.
  apply (proj1 (includes_false_iff _ _) Habsent pre post). exact Hdoc.
Qed.

Lemma embed_inserted_at_selection_witness :
  let env := Sample.quiet Sample.created in
  let w := Sample.world "see ![](pic.png) here" in
  let r := Main.processUpload Sample.settings env Sample.pictureObj false
             (Some "![[pic.png]]") w in
  fst r = Normal true /\
  getValue (editor (snd r))
  = "![](https://raw.githubusercontent.com/alice/notes/main/assets/7-pic.png)see ![](pic.png) here".
Proof.
  destruct (embed_inserted_at_selection Sample.settings (Sample.quiet Sample.created)
              Sample.pictureObj false (Some "![[pic.png]]")
              (Sample.world "see ![](pic.png) here"))
    as (Hret & _ & Htext & _).
  - simpl. lia.
  - reflexivity.
  - intros E. discriminate E.
  - right. reflexivity.
  - reflexivity.
  - split; [exact Hret | exact Htext].
Defined.

(** C6 at a name that holds two dollar signs.  The pasted file is
    a$$.png and the request fails; [replace] reads the two dollar signs
    of the marker as the pattern for one, so the marker written to the
    document is for a$.png and the name of the item is not in the
    text. *)
Theorem failure_marker_loses_dollar :
  let r := Main.processUpload Sample.settings (Sample.quiet Sample.serverError)
             (Sample.pasted "a$$.png" 1000) true None (Sample.world "hello") in
  fst r = Normal false /\
  In (EditorReplaceSelection "![Uploading a$$.png...](5)") (effects (snd r)) /\
  getValue (editor (snd r)) = "[Upload Failed: a$.png]hello" /\
  includes "a$$.png" (getValue (editor (snd r))) = false.
Proof.
  cbv zeta. split; [reflexivity|]. split; [simpl; auto|].
  split; reflexivity.
Qed.

(* ================================================================== *)
(** * The placeholder as an anchor *)
(* ================================================================== *)

Section Counting.

Lemma prefix_nil_r (t : string) : String.prefix t "" = isEmpty t.
Proof. now destruct t. Qed.

Lemma countOccurrences_cons (t : string) (c : ascii) (r : string) :
  countOccurrences t (String c r)
  = (if String.prefix t (String c r) then 1 else 0) + countOccurrences t r.
Proof. reflexivity. Qed.

(** Counting from the second code unit on. *)
Lemma countOccurrences_step (t s : string) :
  isEmpty t = false ->
  countOccurrences t s
  = (if String.prefix t s then 1 else 0) + countOccurrences t (from 1 s).
Proof.
  intros Ht. destruct s as [|c r]; [|reflexivity].
  destruct t; [discriminate | reflexivity].
Qed.

Lemma countOccurrences_from (t : string) (n : nat) (s : string) :
  countOccurrences t (from n s) <= countOccurrences t s.
Proof.
  revert s; induction n as [|n IH]; intros s; [apply Nat.le_refl|].
  destruct s as [|c r]; [apply Nat.le_refl|].
  cbn [from]. rewrite countOccurrences_cons. specialize (IH r). lia.
Qed.

Lemma prefix_from (x y s : string) :
  String.prefix (x ++ y) s = true -> String.prefix y (from (String.length x) s) = true.
Proof.
  intros Hp. apply prefix_iff in Hp. destruct Hp as [rest ->].
  rewrite append_assoc, from_append. apply prefix_append.
Qed.

(** An occurrence of [x ++ y] shows an occurrence of [y] further on, so
    there are no more of the former than of the latter. *)
Lemma countOccurrences_append_le (x y s : string) :
  isEmpty y = false ->
  countOccurrences (x ++ y) s <= countOccurrences y (from (String.length x) s).
Proof.
  intros Hy. induction s as [|c r IH].
  - destruct y as [|d y']; [discriminate|].
    destruct x; simpl; lia.
  - rewrite countOccurrences_cons.
    assert (Hhere : (if String.prefix (x ++ y) (String c r) then 1 else 0)
                    <= (if String.prefix y (from (String.length x) (String c r))
                        then 1 else 0)).
    { destruct (String.prefix (x ++ y) (String c r)) eqn:Hp; [|lia].
      now rewrite (prefix_from _ _ _ Hp). }
    destruct x as [|d x'].
    + cbn [String.length from append] in *. rewrite countOccurrences_cons. lia.
    + cbn [String.length from] in Hhere |- *.
      rewrite (countOccurrences_step y (from (String.length x') r) Hy).
      rewrite <- from_add, Nat.add_1_r.
      apply Nat.add_le_mono; [exact Hhere | exact IH].
Qed.

Lemma countOccurrences_found (t s : string) :
  includes t s = true -> 1 <= countOccurrences t s.
Proof.
  unfold includes. induction s as [|c r IH].
  - destruct t; [simpl; lia | discriminate].
  - rewrite indexOf_cons, countOccurrences_cons.
    destruct (String.prefix t (String c r)); [lia|].
    destruct (indexOf t r); [|discriminate]. intros _. specialize (IH eq_refl). lia.
Qed.

(** A text that ends in a part found only once is itself found at most
    once. *)
Lemma countOccurrences_unique (x y s : string) :
  isEmpty y = false ->
  includes (x ++ y) s = true ->
  countOccurrences y s = 1 ->
  countOccurrences (x ++ y) s = 1.
Proof.
  intros Hy Hin Hone.
  pose proof (countOccurrences_found _ _ Hin).
  pose proof (countOccurrences_append_le x y s Hy).
  pose proof (countOccurrences_from y (String.length x) s).
  lia.
Qed.

Lemma countOccurrences_zero (t s : string) :
  includes t s = false -> countOccurrences t s = 0.
Proof.
  unfold includes. induction s as [|c r IH].
  - destruct t; [discriminate | reflexivity].
  - rewrite indexOf_cons, countOccurrences_cons.
    destruct (String.prefix t (String c r)); [discriminate|].
    destruct (indexOf t r); [discriminate|]. intros _. now rewrite IH.
Qed.

(** A code unit foreign to [t] ends every attempt to read [t]. *)
Lemma prefix_foreign (t x : string) (c : ascii) (v : string) :
  occursIn c t = false ->
  String.prefix t (x ++ String c v) = String.prefix t x.
Proof.
  revert x; induction t as [|d t IH]; intros x Hc.
  - now destruct x.
  - simpl in Hc. apply orb_false_iff in Hc. destruct Hc as [Hd Ht].
    destruct x as [|e x]; simpl.
    + destruct (ascii_dec d c) as [->|_]; [|reflexivity].
      now rewrite Ascii.eqb_refl in Hd.
    + destruct (ascii_dec d e); [now apply IH | reflexivity].
Qed.

(** So the occurrences of [t] lie on one side of it or on the other. *)
Lemma countOccurrences_foreign (t u : string) (c : ascii) (v : string) :
  isEmpty t = false ->
  occursIn c t = false ->
  countOccurrences t (u ++ String c v) = countOccurrences t u + countOccurrences t v.
Proof.
  intros Ht Hc. induction u as [|e u IH].
  - change ("" ++ String c v) with (String c v).
    rewrite countOccurrences_cons.
    pose proof (prefix_foreign t "" c v Hc) as E. cbn [append] in E. rewrite E.
    destruct t; [discriminate | reflexivity].
  - change (String e u ++ String c v) with (String e (u ++ String c v)).
    rewrite !countOccurrences_cons, IH.
    change (String e (u ++ String c v)) with (String e u ++ String c v).
    rewrite prefix_foreign by exact Hc. lia.
Qed.

Lemma countOccurrences_foreign_text (t x v : string) :
  isEmpty t = false ->
  (forall c, occursIn c x = true -> occursIn c t = false) ->
  countOccurrences t (x ++ v) = countOccurrences t v.
Proof.
  intros Ht. induction x as [|c x IH]; intros Hx; [reflexivity|].
  change (String c x ++ v) with ("" ++ String c (x ++ v)).
  rewrite countOccurrences_foreign; [|exact Ht|].
  - rewrite IH.
    + destruct t; [discriminate | reflexivity].
    + intros d Hd. apply Hx. simpl. rewrite Hd. apply orb_true_r.
  - apply Hx. simpl. now rewrite Ascii.eqb_refl.
Qed.

(** A text none of whose code units begins [t] holds no beginning of an
    occurrence. *)
Lemma countOccurrences_skip (d : ascii) (t x v : string) :
  occursIn d x = false ->
  countOccurrences (String d t) (x ++ v) = countOccurrences (String d t) v.
Proof.
  induction x as [|c x IH]; intros Hx; [reflexivity|].
  simpl in Hx. apply orb_false_iff in Hx. destruct Hx as [Hc Hx].
  change (String c x ++ v) with (String c (x ++ v)).
  rewrite countOccurrences_cons, IH by exact Hx. simpl.
  destruct (ascii_dec d c) as [->|_]; [|reflexivity].
  now rewrite Ascii.eqb_refl in Hc.
Qed.

Lemma occursIn_append (c : ascii) (a b : string) :
  occursIn c (a ++ b) = occursIn c a || occursIn c b.
Proof.
  induction a as [|d a IH]; simpl; [reflexivity|]. now rewrite IH, orb_assoc.
Qed.

Lemma decimalText_occursIn (c : ascii) (s : string) :
  decimalText s = true -> occursIn c "-0123456789" = false -> occursIn c s = false.
Proof.
  intros Hs Hc. induction s as [|d s IH]; [reflexivity|].
  cbn [decimalText] in Hs. apply andb_true_iff in Hs. destruct Hs as [Hd Hs].
  cbn [occursIn]. rewrite (IH Hs), orb_false_r.
  destruct (Ascii.eqb_spec c d) as [->|_]; [congruence | reflexivity].
Qed.

Lemma decimalText_uint (d : Decimal.uint) :
  decimalText (NilEmpty.string_of_uint d) = true.
Proof. induction d; simpl; [reflexivity | assumption ..]. Qed.

Lemma decimalText_ofZ (z : Z) : decimalText (ofZ z) = true.
Proof.
  unfold ofZ, NilZero.string_of_int, NilZero.string_of_uint.
  destruct (Z.to_int z) as [d|d]; destruct d; simpl; try reflexivity;
    apply decimalText_uint.
Qed.

End Counting.

Section Anchor.

Context {Editor : Type} `{EditorOps Editor}.
Variable env : Env Editor.
Variable fileObj : FileObj.
Variable e : Editor.

Local Abbreviation placeholder := (Main.placeholderOf env fileObj).

Lemma placeholder_token :
  placeholder = ("![Uploading " ++ name fileObj ++ "...") ++ placeholderToken env.
Proof.
  unfold Main.placeholderOf, placeholderToken.
  rewrite !append_assoc. reflexivity.
Qed.

Lemma anchor_unique (doc : string) :
  includes placeholder doc = true ->
  1 <= countOccurrences placeholder doc /\
  (countOccurrences (placeholderToken env) doc = 1 ->
   countOccurrences placeholder doc = 1).
Proof.
  intros Hin. split; [now apply countOccurrences_found|].
  revert Hin. rewrite placeholder_token. intros Hin Hone.
  now apply countOccurrences_unique.
Qed.

(** Code units that cannot be part of a token. *)
Lemma token_foreign (c : ascii) :
  occursIn c "]()-0123456789" = false ->
  occursIn c (placeholderToken env) = false.
Proof.
  intros Hc. unfold placeholderToken.
  cbn [occursIn] in Hc. repeat (apply orb_false_iff in Hc; destruct Hc as [? Hc]).
  rewrite !occursIn_append.
  rewrite (decimalText_occursIn c (ofZ (nowPlaceholder env)) (decimalText_ofZ _)).
  - cbn [occursIn]. repeat match goal with E : _ = false |- _ => rewrite E; clear E end.
    reflexivity.
  - cbn [occursIn].
    repeat match goal with E : _ = false |- _ => rewrite E; clear E end.
    reflexivity.
Qed.

Lemma token_nonempty : isEmpty (placeholderToken env) = false.
Proof. reflexivity. Qed.

(** The token of a fresh time stamp occurs once in the document: the
    letters and dots of the placeholder keep every other reading of the
    token inside the text before it, inside the name, or inside the text
    after it. *)
Lemma token_unique (before after : string) :
  includes (placeholderToken env) before = false ->
  includes (placeholderToken env) (name fileObj) = false ->
  includes (placeholderToken env) after = false ->
  countOccurrences (placeholderToken env) (before ++ placeholder ++ after) = 1.
Proof.
  intros Hbefore Hname Hafter.
  assert (Hdoc : before ++ placeholder ++ after
                 = before ++ String "!"
                     ("[Uploading "
                      ++ (name fileObj
                          ++ String "." (".." ++ (placeholderToken env ++ after))))).
  { rewrite placeholder_token. rewrite !append_assoc. reflexivity. }
  rewrite Hdoc.
  rewrite countOccurrences_foreign;
    [| exact token_nonempty | now apply token_foreign].
  rewrite (countOccurrences_zero _ _ Hbefore).
  rewrite countOccurrences_foreign_text; [| exact token_nonempty |].
  2:{ intros c Hc. apply token_foreign. cbn [occursIn] in Hc.
      repeat (apply orb_true_iff in Hc; destruct Hc as [Hc|Hc]);
        try discriminate; apply Ascii.eqb_eq in Hc; subst c; reflexivity. }
  rewrite countOccurrences_foreign;
    [| exact token_nonempty | now apply token_foreign].
  rewrite (countOccurrences_zero _ _ Hname).
  rewrite countOccurrences_foreign_text; [| exact token_nonempty |].
  2:{ intros c Hc. apply token_foreign. cbn [occursIn] in Hc.
      repeat (apply orb_true_iff in Hc; destruct Hc as [Hc|Hc]);
        try discriminate; apply Ascii.eqb_eq in Hc; subst c; reflexivity. }
  rewrite countOccurrences_step by exact token_nonempty.
  rewrite prefix_append.
  change (from 1 (placeholderToken env ++ after))
    with (("(" ++ ofZ (nowPlaceholder env) ++ ")") ++ after).
  change (placeholderToken env)
    with (String "]" ("(" ++ ofZ (nowPlaceholder env) ++ ")")) at 1.
  rewrite countOccurrences_skip.
  - change (String "]" ("(" ++ ofZ (nowPlaceholder env) ++ ")"))
      with (placeholderToken env).
    rewrite (countOccurrences_zero _ _ Hafter). reflexivity.
  - rewrite !occursIn_append.
    rewrite (decimalText_occursIn "]" _ (decimalText_ofZ _)); reflexivity.
Qed.

(** The placeholder is found once where its token is fresh. *)
Lemma anchor_fresh (before after : string) :
  includes (placeholderToken env) before = false ->
  includes (placeholderToken env) (name fileObj) = false ->
  includes (placeholderToken env) after = false ->
  countOccurrences placeholder (before ++ placeholder ++ after) = 1.
Proof.
  intros Hbefore Hname Hafter.
  apply anchor_unique; [apply includes_append | now apply token_unique].
Qed.

(** C8, amended.  After the placeholder step of a paste upload the
    document is the text before the selection, the placeholder, and the
    text after the selection.  After the placeholder step of a fallback
    upload whose document contains the link, the first occurrence of the
    link has made room for the placeholder (for a placeholder free of
    the patterns [replace] expands).  In both cases the placeholder
    occurs exactly once in the document when its token, the time stamp
    between "](" and ")", occurs neither in the text on either side nor
    in the name; whatever the document, a placeholder that is in it
    occurs exactly once as soon as its token does.  If the buffer is not
    edited while the handler waits, the document is the same when the
    upload returns. *)
Theorem placeholder_is_anchor (isPasteEvent : bool) (linkToReplace : option string) :
  let doc := getValue (afterInsertion env fileObj isPasteEvent linkToReplace e) in
  let fresh := fun s => includes (placeholderToken env) s = false in
  (isPasteEvent = true ->
     doc = beforeSelection e ++ placeholder ++ afterSelection e /\
     (fresh (beforeSelection e) -> fresh (name fileObj) -> fresh (afterSelection e) ->
      countOccurrences placeholder doc = 1)) /\
  (isPasteEvent = false ->
   forall link,
     linkToReplace = Some link ->
     truthy link = true ->
     includes link (getValue e) = true ->
     hasSubstitutionPattern placeholder = false ->
     exists pre post,
       getValue e = pre ++ link ++ post /\
       indexOf link (getValue e) = Some (String.length pre) /\
       doc = pre ++ placeholder ++ post /\
       (fresh pre -> fresh (name fileObj) -> fresh post ->
        countOccurrences placeholder doc = 1)) /\
  (includes placeholder doc = true ->
   1 <= countOccurrences placeholder doc /\
   (countOccurrences (placeholderToken env) doc = 1 ->
    countOccurrences placeholder doc = 1)) /\
  ((forall e', getValue (editsWhileEncoding env e') = getValue e') ->
   (forall e', getValue (editsWhileUploading env e') = getValue e') ->
   getValue (atResolution env fileObj isPasteEvent linkToReplace e) = doc).
Proof.
  intros doc fresh. subst doc fresh. cbv beta. split; [|split; [|split]].
  - intros ->. unfold afterInsertion. rewrite getValue_replaceSelection.
    split; [reflexivity | apply anchor_fresh].
  - intros -> link -> Hlink Hin Hplain. unfold afterInsertion. rewrite Hlink.
    rewrite getValue_setValue.
    destruct (replace_first link placeholder (getValue e) Hin Hplain)
      as (pre & post & Hdoc & Hfirst & Hnew).
    exists pre, post. rewrite Hnew.
    repeat split; try assumption. apply anchor_fresh.
  - apply anchor_unique.
  - intros Henc Hup. unfold atResolution. rewrite Hup.
    destruct (needsEncoding fileObj); [apply Henc | reflexivity].
Qed.

End Anchor.

Lemma placeholder_is_anchor_witness :
  let env := Sample.quiet Sample.created in
  let doc := getValue (afterInsertion env Sample.pictureObj false
                         (Some "![[pic.png]]") (bufferOf "see ![[pic.png]] here")) in
  exists pre post,
    "see ![[pic.png]] here" = pre ++ "![[pic.png]]" ++ post /\
    doc = pre ++ "![Uploading pic.png...](5)" ++ post /\
    (includes "](5)" pre = false -> includes "](5)" "pic.png" = false ->
     includes "](5)" post = false ->
     countOccurrences "![Uploading pic.png...](5)" doc = 1).
Proof.
  destruct (placeholder_is_anchor (Sample.quiet Sample.created) Sample.pictureObj
              (bufferOf "see ![[pic.png]] here") false (Some "![[pic.png]]"))
    as (_ & Hfallback & _).
  destruct (Hfallback eq_refl "![[pic.png]]" eq_refl eq_refl eq_refl eq_refl)
    as (pre & post & Hdoc & _ & Hnew & Hone).
  exists pre, post. split; [exact Hdoc|]. split; [exact Hnew | exact Hone].
Defined.

(** C8 as stated fails in three ways.  On the fallback path, a note
    that refers to the file with a markdown link has no [![[pic.png]]]
    to exchange, so between the placeholder step and the return of the
    upload the document holds the placeholder nowhere.  On the paste
    path, a document that already shows the same placeholder text holds
    it twice after the step.  And on the fallback path with the link in
    the note, a name with a pattern that [replace] expands, such as
    [a$$.png], leaves another text than the placeholder in the document,
    which then holds the placeholder nowhere. *)
Lemma placeholder_anchor_counterexample :
  let env := Sample.quiet Sample.created in
  let dollars :=
    {| name := "a$$.png"; type := "image/png"; base64 := Some "QUJD";
       size := 2048; instanceofFile := false |} in
  countOccurrences (Main.placeholderOf env Sample.pictureObj)
    (getValue (afterInsertion env Sample.pictureObj false (Some "![[pic.png]]")
                 (bufferOf "see ![](pic.png) here"))) = 0
  /\ countOccurrences (Main.placeholderOf env Sample.pictureObj)
       (getValue (atResolution env Sample.pictureObj false (Some "![[pic.png]]")
                    (bufferOf "see ![](pic.png) here"))) = 0
  /\ countOccurrences (Main.placeholderOf env (Sample.pasted "a.png" 1000))
       (getValue (afterInsertion env (Sample.pasted "a.png" 1000) true None
                    {| textBefore := "![Uploading a.png...](5) and ";
                       textSelected := ""; textAfter := "" |})) = 2
  /\ Main.placeholderOf env dollars = "![Uploading a$$.png...](5)"
  /\ includes (placeholderToken env) "see " = false
  /\ includes (placeholderToken env) (name dollars) = false
  /\ includes (placeholderToken env) " here" = false
  /\ getValue (afterInsertion env dollars false (Some "![[a$$.png]]")
                 (bufferOf "see ![[a$$.png]] here"))
     = "see ![Uploading a$.png...](5) here"
  /\ countOccurrences (Main.placeholderOf env dollars)
       (getValue (afterInsertion env dollars false (Some "![[a$$.png]]")
                    (bufferOf "see ![[a$$.png]] here"))) = 0.
Proof. cbv zeta. repeat split; reflexivity. Qed.

(* ================================================================== *)
(** * The older paste handler *)
(* ================================================================== *)

Section OlderHandler.

Context {Editor : Type} `{EditorOps Editor}.
Variable settings : Settings.
Variable env : Env Editor.
Variable file : File.
Variable rest : list File.
Variable w : World Editor.

Local Abbreviation placeholder := (Part000.placeholderOf file).
Local Abbreviation paste := (Part000.handlePaste settings env (file :: rest)).

Hypothesis media :
  startsWith "image/" (fileType file) || startsWith "video/" (fileType file) = true.

Lemma media_passes :
  negb (startsWith "image/" (fileType file))
  && negb (startsWith "video/" (fileType file)) = false.
Proof.
  apply orb_true_iff in media. destruct media as [-> | ->];
    [reflexivity | apply andb_false_r].
Qed.

(** The two rejections of the older handler: one notice, nothing else,
    and the paste event is left to the host. *)
Lemma older_oversize_rejected :
  (25 * (1024 * 1024) < fileSize file)%Z ->
  paste w =
  (Normal tt,
   {| editor := editor w; vault := vault w;
      effects :=
        (effects w ++ [Notice (FileTooBigApiLimit (sizeInMB (fileSize file)))])%list |}).
Proof.
  intros Hbig. apply overLimit_iff in Hbig.
  unfold Part000.handlePaste. cbv zeta. rewrite media_passes, Hbig. reflexivity.
Qed.

Lemma older_missing_configuration_rejected :
  (fileSize file <= 25 * (1024 * 1024))%Z ->
  configured settings = false ->
  paste w =
  (Normal tt,
   {| editor := editor w; vault := vault w;
      effects := (effects w ++ [Notice PleaseConfigureFirst])%list |}).
Proof.
  intros Hsize Hcfg. apply overLimit_false_iff in Hsize.
  unfold Part000.handlePaste. cbv zeta.
  rewrite media_passes, Hsize, (configured_false settings Hcfg). reflexivity.
Qed.

(** A failed request in the older handler: the marker that takes the
    place of the placeholder is made from the message of the error, not
    from the name of the file. *)
Lemma older_failure_marker (result : string) (err : JsValue) :
  (fileSize file <= 25 * (1024 * 1024))%Z ->
  configured settings = true ->
  readerResult env = Some result ->
  uploadError (requestOutcome env) = Some err ->
  let e := editsWhileUploading env
             (editsWhileEncoding env (replaceSelection placeholder (editor w))) in
  snd (paste w) =
  {| editor :=
       setValue (replace placeholder (failureMarker (messageOf err)) (getValue e)) e;
     vault := vault w;
     effects :=
       (effects w
        ++ [PreventDefault;
            EditorReplaceSelection placeholder;
            Notice (UploadingType (fileType file));
            RequestUrl (requestOf settings env (ofFile file));
            ConsoleError err;
            Notice (UploadFailed (messageOf err));
            EditorSetValue
              (replace placeholder (failureMarker (messageOf err)) (getValue e))])%list |}.
Proof.
  intros Hsize Hcfg Hread Herr e. apply overLimit_false_iff in Hsize.
  unfold Part000.handlePaste. cbv zeta.
  rewrite media_passes, Hsize, (configured_true settings Hcfg).
  unfold Main.fileToBase64. rewrite Hread. run.
  rewrite uploadToGithub_run, Herr. cbn [snd editor vault effects].
  subst e. unfold requestOf, contentOf, needsEncoding, pathOf, userOf, repoOf,
    tokenOf, branchOf.
  cbn [ofFile base64 instanceofFile missing andb name]. rewrite Hread.
  repeat rewrite <- app_assoc. reflexivity.
Qed.

(** A successful request in the older handler: the placeholder is
    exchanged for the embed without a test for its presence, so when it
    is gone the embed is dropped. *)
Lemma older_success (result : string) :
  (fileSize file <= 25 * (1024 * 1024))%Z ->
  configured settings = true ->
  readerResult env = Some result ->
  uploadError (requestOutcome env) = None ->
  let e := editsWhileUploading env
             (editsWhileEncoding env (replaceSelection placeholder (editor w))) in
  let embed := embedOf settings env (ofFile file) in
  fst (paste w) = Normal tt /\
  editor (snd (paste w)) = setValue (replace placeholder embed (getValue e)) e.
Proof.
  intros Hsize Hcfg Hread Hok e embed. apply overLimit_false_iff in Hsize.
  unfold Part000.handlePaste. cbv zeta.
  rewrite media_passes, Hsize, (configured_true settings Hcfg).
  unfold Main.fileToBase64. rewrite Hread. run.
  rewrite uploadToGithub_run, Hok. cbn [fst snd editor vault effects].
  split; [reflexivity|].
  subst e embed. unfold embedOf, Main.embedCodeOf, pathOf, userOf, repoOf, branchOf.
  cbn [ofFile type name].
  destruct (startsWith "image/" (fileType file)) eqn:Himage; [reflexivity|].
  simpl in media. now rewrite media.
Qed.

End OlderHandler.

(* ================================================================== *)
(** * The configuration store *)
(* ================================================================== *)

Section Store.

Import SettingsStore.

(** What [loadSettings] leaves under a key: the stored value, or else
    the default. *)
Lemma loadSettings_lookup (p : Plugin) (k : string) :
  settings (loadSettings p) k
  = match data p with
    | Some stored =>
        match stored k with
        | Some v => Some v
        | None => DEFAULT_SETTINGS k
        end
    | None => DEFAULT_SETTINGS k
    end.
Proof.
  unfold loadSettings, assign, emptyObject. cbn [settings data].
  destruct (data p) as [stored|]; [destruct (stored k); [reflexivity|] |];
    now destruct (DEFAULT_SETTINGS k).
Qed.

Lemma loadSettings_read (p : Plugin) :
  readSettings (settings (loadSettings p))
  = Some {| githubUser := storedOr p "githubUser" "";
            githubRepo := storedOr p "githubRepo" "";
            githubToken := storedOr p "githubToken" "";
            folderPath := storedOr p "folderPath" "";
            branch := storedOr p "branch" "main" |}.
Proof.
  unfold readSettings, storedOr. rewrite !loadSettings_lookup.
  destruct (data p) as [stored|]; [|reflexivity].
  destruct (stored "githubUser"), (stored "githubRepo"), (stored "githubToken"),
    (stored "folderPath"), (stored "branch"); reflexivity.
Qed.

(** X1. After [loadSettings] each of the five fields is defined,
    whatever the data file holds: a field found in the file has the
    stored value, a field that is missing (or all of them, when there is
    no file) has its default, which is "main" for the branch and the
    empty string for the others. *)
Theorem loadSettings_merges_defaults (p : Plugin) :
  readSettings (settings (loadSettings p))
  = Some {| githubUser := storedOr p "githubUser" "";
            githubRepo := storedOr p "githubRepo" "";
            githubToken := storedOr p "githubToken" "";
            folderPath := storedOr p "folderPath" "";
            branch := storedOr p "branch" "main" |}.
Proof. exact (loadSettings_read p). Qed.

Lemma loadSettings_complete (p : Plugin) : complete (settings (loadSettings p)) = true.
Proof. unfold complete. now rewrite loadSettings_read. Qed.

(** A complete object defines every key that has a default. *)
Lemma complete_defaults (o : JsObject) (k : string) :
  complete o = true -> DEFAULT_SETTINGS k <> None -> o k <> None.
Proof.
  unfold complete, readSettings, DEFAULT_SETTINGS, setProperty, emptyObject.
  intros Ho Hk.
  destruct (o "githubUser") eqn:E1; [|discriminate].
  destruct (o "githubRepo") eqn:E2; [|discriminate].
  destruct (o "githubToken") eqn:E3; [|discriminate].
  destruct (o "folderPath") eqn:E4; [|discriminate].
  destruct (o "branch") eqn:E5; [|discriminate].
  repeat match type of Hk with
         | context [String.eqb k ?key] =>
             destruct (String.eqb_spec k key) as [->|_]; [congruence|]
         end.
  now elim Hk.
Qed.

(** Over a complete object the defaults add nothing. *)
Lemma assign_defaults_complete (o : JsObject) (k : string) :
  complete o = true -> assign (assign emptyObject DEFAULT_SETTINGS) o k = o k.
Proof.
  intros Ho. unfold assign.
  destruct (o k) as [v|] eqn:Hk; [reflexivity|].
  destruct (DEFAULT_SETTINGS k) eqn:Hd; [|reflexivity].
  exfalso. apply (complete_defaults o k Ho); [congruence | exact Hk].
Qed.

(** X2. Saving and loading again gives back the settings object, field
    by field, as soon as it holds the five fields (as it does after any
    [loadSettings]). *)
Theorem save_then_load (p : Plugin) :
  complete (settings p) = true ->
  forall k, settings (loadSettings (saveSettings p)) k = settings p k.
Proof.
  intros Hp k. unfold loadSettings, saveSettings. cbn [settings data].
  now apply assign_defaults_complete.
Qed.

Lemma setProperty_complete (key v : string) (o : JsObject) :
  complete o = true -> complete (setProperty key v o) = true.
Proof.
  unfold complete, readSettings, setProperty. intros Ho.
  destruct (o "githubUser"); [|discriminate].
  destruct (o "githubRepo"); [|discriminate].
  destruct (o "githubToken"); [|discriminate].
  destruct (o "folderPath"); [|discriminate].
  destruct (o "branch"); [|discriminate].
  repeat match goal with
         | |- context [String.eqb ?k key] => destruct (String.eqb k key)
         end; reflexivity.
Qed.

(** X3. Typing [v] into one input of the settings tab changes the field
    that input shows and no other: when the tab is drawn again that
    input shows [v] and every other input shows what it showed before.
    The change is in the data file at once, so the same holds after the
    settings are loaded again. *)
Theorem settings_input_edits_its_field (p : Plugin) (i : nat) (row : TextSetting)
    (v : string) :
  complete (settings p) = true ->
  nth_error (display p) i = Some row ->
  let p' := onChange row v p in
  map textValue (display p') = updateNth i (Some v) (map textValue (display p)) /\
  data p' = Some (settings p') /\
  map textValue (display (loadSettings p')) = map textValue (display p').
Proof.
  intros Hp Hrow p'. subst p'.
  assert (Hreload : forall key,
             map textValue (display (loadSettings (change key v p)))
             = map textValue (display (change key v p))).
  { intros key. unfold display. cbn [map textValue].
    unfold change, loadSettings, saveSettings. cbn [settings data].
    rewrite !assign_defaults_complete by (now apply setProperty_complete).
    reflexivity. }
  do 5 (destruct i as [|i];
        [injection Hrow as <-; cbn [onChange];
         split; [reflexivity | split; [reflexivity | apply Hreload]] |]).
  destruct i; discriminate Hrow.
Qed.

End Store.

Lemma save_then_load_witness :
  SettingsStore.settings
    (SettingsStore.loadSettings
       (SettingsStore.saveSettings
          (SettingsStore.change "githubUser" "alice"
             (SettingsStore.loadSettings
                {| SettingsStore.settings := SettingsStore.emptyObject;
                   SettingsStore.data := None |}))))
    "githubUser"
  = Some "alice".
Proof.
  rewrite save_then_load; reflexivity.
Defined.

Lemma settings_input_edits_its_field_witness :
  let p := SettingsStore.loadSettings
             {| SettingsStore.settings := SettingsStore.emptyObject;
                SettingsStore.data := None |} in
  let p' := SettingsStore.change "branch" "dev" p in
  map SettingsStore.textValue (SettingsStore.display p')
  = [Some ""; Some ""; Some "dev"; Some ""; Some ""].
Proof.
  cbv zeta.
  exact (proj1 (settings_input_edits_its_field
                  (SettingsStore.loadSettings
                     {| SettingsStore.settings := SettingsStore.emptyObject;
                        SettingsStore.data := None |})
                  2 _ "dev" eq_refl eq_refl)).
Defined.

(* ================================================================== *)
(** * Every run of [processUpload] *)
(* ================================================================== *)

Lemma noticesOf_app (a b : list Effect) :
  noticesOf (a ++ b) = (noticesOf a ++ noticesOf b)%list.
Proof.
  induction a as [|x a IH]; simpl; [reflexivity|].
  destruct x; simpl; now rewrite IH.
Qed.

Lemma skipn_length_app {A : Type} (l new : list A) :
  skipn (List.length l) (l ++ new) = new.
Proof. induction l as [|x l IH]; simpl; [reflexivity | exact IH]. Qed.

Lemma newEffects_run {Editor : Type} (w : World Editor) (e : Editor)
    (v : list (string * string)) (new : list Effect) :
  newEffects w {| editor := e; vault := v; effects := (effects w ++ new)%list |} = new.
Proof. unfold newEffects. cbn [effects]. apply skipn_length_app. Qed.

Section EveryRun.

Context {Editor : Type} `{EditorOps Editor}.
Variable settings : Settings.
Variable env : Env Editor.
Variable fileObj : FileObj.
Variable isPasteEvent : bool.
Variable linkToReplace : option string.
Variable w : World Editor.

Local Abbreviation upload :=
  (Main.processUpload settings env fileObj isPasteEvent linkToReplace).
Local Abbreviation insertion :=
  (insertionEffects env fileObj isPasteEvent linkToReplace (editor w)).
Local Abbreviation fileName := (remoteFileName (nowFileName env) (name fileObj)).

Lemma processUpload_course :
  exists b e new,
    upload w = (Normal b, {| editor := e; vault := vault w;
                             effects := (effects w ++ new)%list |})
    /\ Course settings env fileObj isPasteEvent linkToReplace (editor w) b new.
Proof.
  destruct (overLimit (size fileObj)) eqn:Hsize.
  { do 3 eexists. split; [apply (processUpload_oversize _ _ _ _ _ w Hsize)|].
    now constructor. }
  destruct (configured settings) eqn:Hcfg.
  2:{ do 3 eexists. split; [apply (processUpload_unconfigured _ _ _ _ _ w Hsize Hcfg)|].
      now constructor. }
  assert (Encoded : (needsEncoding fileObj = true /\ readerResult env = None)
                    \/ (needsEncoding fileObj = true -> readerResult env <> None)).
  { destruct (needsEncoding fileObj); [|right; discriminate].
    destruct (readerResult env); [right; discriminate | left; auto]. }
  destruct Encoded as [[Henc Hread]|Hread].
  { do 3 eexists.
    split; [apply (processUpload_encodingFailure _ _ _ _ _ w Hsize Hcfg Henc Hread)|].
    now constructor. }
  destruct (uploadError (requestOutcome env)) as [err|] eqn:Herr.
  - do 3 eexists.
    split; [apply (processUpload_uploadFailure _ _ _ _ _ w err Hsize Hcfg Hread Herr)|].
    now constructor.
  - do 3 eexists.
    split; [apply (processUpload_success _ _ _ _ _ w Hsize Hcfg Hread Herr)|].
    constructor; try assumption.
    match goal with |- context [includes ?p ?v] => destruct (includes p v) end;
      reflexivity.
Qed.

Lemma noticesOf_insertion : noticesOf insertion = [].
Proof.
  unfold insertionEffects. destruct isPasteEvent; [reflexivity|].
  destruct linkToReplace as [link|]; [|reflexivity].
  now destruct (truthy link).
Qed.

Lemma requestsOf_insertion : requestsOf insertion = [].
Proof.
  unfold insertionEffects. destruct isPasteEvent; [reflexivity|].
  destruct linkToReplace as [link|]; [|reflexivity].
  now destruct (truthy link).
Qed.

Lemma editorWritesOf_insertion : editorWritesOf insertion = insertion.
Proof.
  unfold insertionEffects. destruct isPasteEvent; [reflexivity|].
  destruct linkToReplace as [link|]; [|reflexivity].
  now destruct (truthy link).
Qed.

Ltac every_course :=
  destruct processUpload_course as (b & e & new & Hrun & Hcourse);
  rewrite Hrun; cbn [fst snd vault]; rewrite newEffects_run.

(** X4. [processUpload] never throws: whatever the file reader and the
    request do, it returns a boolean.  It never touches the vault.  It
    shows exactly one notice in every run, and it returns [true] exactly
    when that notice is the one that announces the upload. *)
Theorem processUpload_one_notice :
  let r := upload w in
  let new := newEffects w (snd r) in
  (fst r = Normal true \/ fst r = Normal false) /\
  vault (snd r) = vault w /\
  deletionsOf new = [] /\
  exists n, noticesOf new = [n] /\ (fst r = Normal true <-> n = Uploaded fileName).
Proof.
  cbv zeta. every_course.
  destruct Hcourse;
    rewrite ?noticesOf_app, ?deletionsOf_app, ?noticesOf_insertion,
      ?(deletionsOf_insertion env fileObj isPasteEvent linkToReplace);
    (split; [auto|]); (split; [reflexivity|]).
  1-4: split; [reflexivity|]; eexists; (split; [reflexivity|]);
       split; [discriminate 1 | discriminate 1].
  split.
  - destruct write; try discriminate; reflexivity.
  - destruct write; try discriminate; simpl; eexists; (split; [reflexivity|]);
      split; reflexivity.
Qed.

(** X5. No retries: a run sends at most one request, and none at all
    when the item is turned away or cannot be encoded.  The request is a
    PUT to the contents endpoint of the repository, for the trimmed
    user and repository, authorised by the trimmed token and aimed at
    the trimmed branch. *)
Theorem processUpload_one_request :
  let new := newEffects w (snd (upload w)) in
  let request := requestOf settings env fileObj in
  (requestsOf new = [] \/ requestsOf new = [request]) /\
  (requestsOf new = [] <->
   overLimit (size fileObj) = true \/ configured settings = false
   \/ (needsEncoding fileObj = true /\ readerResult env = None)) /\
  method request = "PUT" /\
  url request = "https://api.github.com/repos/" ++ trim (githubUser settings)
                ++ "/" ++ trim (githubRepo settings) ++ "/contents/"
                ++ pathOf settings env fileObj /\
  authorization request = "token " ++ trim (githubToken settings) /\
  bodyBranch request = trim (branch settings).
Proof.
  cbv zeta. every_course.
  split; [|split; [|repeat split]].
  - destruct Hcourse; rewrite ?requestsOf_app, ?requestsOf_insertion; simpl; auto.
    destruct write; try discriminate; auto.
  - destruct Hcourse; rewrite ?requestsOf_app, ?requestsOf_insertion; simpl.
    + tauto.
    + tauto.
    + tauto.
    + split; [discriminate|]. intros [E|[E|[E1 E2]]]; try congruence.
      now elim (H2 E1).
    + destruct write; try discriminate;
        (split; [discriminate|]; intros [E|[E|[E1 E2]]]; try congruence;
         now elim (H2 E1)).
Qed.

(** X6. The limit is inclusive: the notice about the size is shown
    exactly when the item has more than 25 MiB, so an item of exactly
    26214400 bytes goes on to the next check. *)
Theorem size_notice_iff :
  noticesOf (newEffects w (snd (upload w))) = [FileTooBig (sizeInMB (size fileObj))]
  <-> (25 * (1024 * 1024) < size fileObj)%Z.
Proof.
  rewrite <- overLimit_iff. every_course.
  destruct Hcourse; rewrite ?noticesOf_app, ?noticesOf_insertion; simpl.
  - tauto.
  - split; [discriminate | congruence].
  - split; [discriminate | congruence].
  - split; [discriminate | congruence].
  - destruct write; try discriminate; (split; [discriminate | congruence]).
Qed.

(** X7. For an item within the limit, the notice about the settings is
    shown exactly when the user, the repository or the token is blank,
    that is, holds nothing but white space.  The branch and the folder
    are not looked at. *)
Theorem settings_notice_iff :
  (size fileObj <= 25 * (1024 * 1024))%Z ->
  (noticesOf (newEffects w (snd (upload w))) = [ConfigureGitHubSettings]
   <-> allWhiteSpace (githubUser settings) = true
       \/ allWhiteSpace (githubRepo settings) = true
       \/ allWhiteSpace (githubToken settings) = true).
Proof.
  intros Hsize. apply overLimit_false_iff in Hsize.
  assert (Hblank : configured settings = false
                   <-> allWhiteSpace (githubUser settings) = true
                       \/ allWhiteSpace (githubRepo settings) = true
                       \/ allWhiteSpace (githubToken settings) = true).
  { unfold configured. rewrite negb_false_iff, !orb_true_iff.
    rewrite <- !trim_empty_iff.
    assert (E : forall s, isEmpty s = true <-> s = "")
      by (intros s; destruct s; split; (reflexivity || discriminate)).
    rewrite !E. tauto. }
  rewrite <- Hblank. every_course.
  destruct Hcourse; rewrite ?noticesOf_app, ?noticesOf_insertion; simpl.
  - congruence.
  - tauto.
  - split; [discriminate | congruence].
  - split; [discriminate | congruence].
  - destruct write; try discriminate; (split; [discriminate | congruence]).
Qed.

(** X8. When the file reader fails, nothing is sent: the run returns
    [false], makes no request, and its notice reads "Upload Failed:
    undefined", because the reader rejects with an event that has no
    message. *)
Theorem reader_failure_reported :
  (size fileObj <= 25 * (1024 * 1024))%Z ->
  configured settings = true ->
  needsEncoding fileObj = true ->
  readerResult env = None ->
  let r := upload w in
  fst r = Normal false /\
  requestsOf (newEffects w (snd r)) = [] /\
  noticesOf (newEffects w (snd r)) = [UploadFailed "undefined"].
Proof.
  intros Hsize Hcfg Henc Hread r. subst r. apply overLimit_false_iff in Hsize.
  rewrite (processUpload_encodingFailure _ _ _ _ _ w Hsize Hcfg Henc Hread).
  cbn [fst snd]. rewrite newEffects_run.
  rewrite requestsOf_app, noticesOf_app, requestsOf_insertion, noticesOf_insertion.
  repeat split.
Qed.

(** X9. The editor is written only after both checks have passed.  A
    paste upload that passes them writes twice, whatever happens to the
    request: the placeholder goes in place of the selection first, and
    one more write resolves it. *)
Theorem processUpload_editor_writes :
  let new := newEffects w (snd (upload w)) in
  (overLimit (size fileObj) = true \/ configured settings = false ->
   editorWritesOf new = []) /\
  (overLimit (size fileObj) = false -> configured settings = true ->
   isPasteEvent = true ->
   exists write,
     editorWritesOf new
     = [EditorReplaceSelection (Main.placeholderOf env fileObj); write]).
Proof.
  cbv zeta. every_course. split.
  - intros Hrej.
    destruct Hcourse; try reflexivity; destruct Hrej; congruence.
  - intros Hsize Hcfg Hpaste.
    destruct Hcourse; try congruence;
      rewrite editorWritesOf_app, editorWritesOf_insertion;
      unfold insertionEffects; rewrite Hpaste; simpl.
    + eexists; reflexivity.
    + eexists; reflexivity.
    + destruct write; try discriminate; eexists; reflexivity.
Qed.

End EveryRun.

Lemma settings_notice_iff_witness :
  noticesOf (newEffects (Sample.world "note")
               (snd (Main.processUpload
                       {| githubUser := "alice"; githubRepo := "   ";
                          githubToken := "ghp_token"; folderPath := "";
                          branch := "main" |}
                       (Sample.quiet Sample.created) (Sample.pasted "a.png" 1000)
                       true None (Sample.world "note"))))
  = [ConfigureGitHubSettings].
Proof.
  apply settings_notice_iff.
  - simpl. lia.
  - right. left. reflexivity.
Defined.

Lemma reader_failure_reported_witness :
  let env := {| nowPlaceholder := 5; nowFileName := 7; readerResult := None;
                requestOutcome := Sample.created;
                editsWhileSettling := fun e : Buffer => e;
                editsWhileReadingVault := fun e => e;
                editsWhileEncoding := fun e => e;
                editsWhileUploading := fun e => e |} in
  let r := Main.processUpload Sample.settings env (Sample.pasted "a.png" 1000)
             true None (Sample.world "note") in
  fst r = Normal false /\
  requestsOf (newEffects (Sample.world "note") (snd r)) = [] /\
  noticesOf (newEffects (Sample.world "note") (snd r)) = [UploadFailed "undefined"].
Proof.
  cbv zeta. apply reader_failure_reported.
  - simpl. lia.
  - reflexivity.
  - reflexivity.
  - reflexivity.
Defined.


(* ================================================================== *)
(** * From the event to the final text *)
(* ================================================================== *)

Lemma append_same_length (a b c d : string) :
  a ++ b = c ++ d -> String.length a = String.length c -> a = c /\ b = d.
Proof.
  revert c; induction a as [|x a IH]; intros c E L.
  - destruct c; [auto | discriminate L].
  - destruct c as [|y c]; [discriminate L|].
    simpl in E, L. injection E as -> E. injection L as L.
    destruct (IH c E L) as [-> ->]. auto.
Qed.

Lemma indexOf_prefix (t s : string) :
  String.prefix t s = true -> indexOf t s = Some 0.
Proof.
  intros Hp. destruct s; [rewrite indexOf_nil | rewrite indexOf_cons];
    now rewrite Hp.
Qed.

(** Where a text occurs once, [indexOf] finds that occurrence. *)
Lemma indexOf_unique (t pre post : string) :
  countOccurrences t (pre ++ t ++ post) = 1 ->
  indexOf t (pre ++ t ++ post) = Some (String.length pre).
Proof.
  induction pre as [|c pre IH]; intros Hone.
  - apply indexOf_prefix. apply (prefix_append t post).
  - change (String c pre ++ t ++ post) with (String c (pre ++ t ++ post)) in *.
    rewrite countOccurrences_cons in Hone. rewrite indexOf_cons.
    pose proof (countOccurrences_found t (pre ++ t ++ post) (includes_append _ _ _)).
    destruct (String.prefix t (String c (pre ++ t ++ post))); [lia|].
    rewrite IH by lia. reflexivity.
Qed.

Section Anchored.

Context {Editor : Type}.
Variable env : Env Editor.
Variable fileObj : FileObj.

(** With a fresh token, [replace] exchanges the placeholder where it
    was put. *)
Lemma replace_anchor (before after text : string) :
  includes (placeholderToken env) before = false ->
  includes (placeholderToken env) (name fileObj) = false ->
  includes (placeholderToken env) after = false ->
  hasSubstitutionPattern text = false ->
  replace (Main.placeholderOf env fileObj) text
    (before ++ Main.placeholderOf env fileObj ++ after)
  = before ++ text ++ after.
Proof.
  intros Hbefore Hname Hafter Hplain.
  destruct (replace_first (Main.placeholderOf env fileObj) text
              (before ++ Main.placeholderOf env fileObj ++ after)
              (includes_append _ _ _) Hplain)
    as (pre & post & Hdoc & Hfirst & ->).
  rewrite (indexOf_unique _ _ _
             (anchor_fresh env fileObj before after Hbefore Hname Hafter)) in Hfirst.
  injection Hfirst as Hlen.
  destruct (append_same_length _ _ _ _ Hdoc Hlen) as [-> Hrest].
  apply append_cancel_l in Hrest. now subst post.
Qed.

End Anchored.

Lemma replace_at (t r s pre post : string) :
  s = pre ++ t ++ post ->
  indexOf t s = Some (String.length pre) ->
  hasSubstitutionPattern r = false ->
  replace t r s = pre ++ r ++ post.
Proof.
  intros Hs Hfirst Hplain.
  assert (Hin : includes t s = true) by (rewrite Hs; apply includes_append).
  destruct (replace_first t r s Hin Hplain) as (pre' & post' & Hs' & Hfirst' & ->).
  rewrite Hfirst in Hfirst'. injection Hfirst' as Hlen.
  rewrite Hs in Hs'.
  destruct (append_same_length _ _ _ _ Hs' Hlen) as [<- Hrest].
  apply append_cancel_l in Hrest. now subst post'.
Qed.

Section PasteEvent.

Context {Editor : Type} `{EditorOps Editor}.
Variable settings : Settings.
Variable env : Env Editor.
Variable file : File.
Variable rest : list File.
Variable w : World Editor.

Local Abbreviation paste := (Main.handlePaste settings env (file :: rest)).
Local Abbreviation placeholder := (Main.placeholderOf env (ofFile file)).
Local Abbreviation before := (beforeSelection (editor w)).
Local Abbreviation after := (afterSelection (editor w)).

(** X10. A paste without files, or whose first file is neither an image
    nor a video, is left to the host: the handler returns with no effect
    at all, not even [preventDefault]. *)
Theorem paste_ignored (files : list File) :
  match files with
  | [] => True
  | first :: _ =>
      startsWith "image/" (fileType first) = false /\
      startsWith "video/" (fileType first) = false
  end ->
  Main.handlePaste settings env files w = (Normal tt, w).
Proof.
  destruct files as [|first others]; [reflexivity|].
  intros [Himage Hvideo]. unfold Main.handlePaste.
  now rewrite Himage, Hvideo.
Qed.

Hypothesis media :
  startsWith "image/" (fileType file) = true \/ startsWith "video/" (fileType file) = true.

Lemma media_accepted :
  negb (startsWith "image/" (fileType file))
  && negb (startsWith "video/" (fileType file)) = false.
Proof. destruct media as [-> | ->]; [reflexivity | apply andb_false_r]. Qed.

Lemma handlePaste_run :
  paste w =
  (let (c, w') :=
     Main.processUpload settings env (ofFile file) true None
       {| editor := editor w; vault := vault w;
          effects := (effects w ++ [PreventDefault])%list |} in
   match c with
   | Normal _ => (Normal tt, w')
   | Throw e => (Throw e, w')
   end).
Proof. unfold Main.handlePaste. rewrite media_accepted. reflexivity. Qed.

(** X11. A media paste is always taken away from the host, and only its
    first file counts.  When the upload is then turned away for the size
    of the file or for the settings, [preventDefault] and the notice are
    all that happens: nothing is put into the document. *)
Theorem rejected_paste_is_swallowed :
  (25 * (1024 * 1024) < fileSize file)%Z \/ configured settings = false ->
  exists n,
    paste w =
    (Normal tt,
     {| editor := editor w; vault := vault w;
        effects := (effects w ++ [PreventDefault; Notice n])%list |}).
Proof.
  intros Hrejected. rewrite handlePaste_run.
  destruct (overLimit (fileSize file)) eqn:Hsize.
  - rewrite processUpload_oversize by exact Hsize.
    cbn [editor vault effects]. rewrite app_effects. eexists; reflexivity.
  - destruct Hrejected as [Hbig|Hcfg].
    + apply overLimit_iff in Hbig. cbn [ofFile size] in Hsize. congruence.
    + rewrite processUpload_unconfigured by assumption.
      cbn [editor vault effects]. rewrite app_effects. eexists; reflexivity.
Qed.

Variable result : string.

Hypothesis within_limit : (fileSize file <= 25 * (1024 * 1024))%Z.
Hypothesis settings_present : configured settings = true.
Hypothesis reader_done : readerResult env = Some result.
Hypothesis quiet_encoding : forall e, getValue (editsWhileEncoding env e) = getValue e.
Hypothesis quiet_upload : forall e, getValue (editsWhileUploading env e) = getValue e.
Hypothesis fresh_before : includes (placeholderToken env) before = false.
Hypothesis fresh_name : includes (placeholderToken env) (fileName file) = false.
Hypothesis fresh_after : includes (placeholderToken env) after = false.
Hypothesis plain_name : noDollar (fileName file) = true.

Lemma paste_at_resolution :
  getValue (atResolution env (ofFile file) true None (editor w))
  = before ++ placeholder ++ after.
Proof.
  unfold atResolution, afterInsertion. cbn [needsEncoding ofFile base64 instanceofFile
    missing andb].
  unfold needsEncoding. cbn [ofFile base64 instanceofFile missing andb].
  rewrite quiet_upload, quiet_encoding. apply getValue_replaceSelection.
Qed.

(** X12. A media paste, start to end.  With settings and a name free of
    dollar signs, a time stamp token that occurs nowhere around the
    selection, nothing typed meanwhile and a PUT answered with 200 or
    201, the text of the document ends as the text before the selection,
    the embed, and the text after the selection.  What is sent is the
    part of the data URL after its first comma. *)
Theorem paste_ends_with_embed :
  noDollar (githubUser settings) = true ->
  noDollar (githubRepo settings) = true ->
  noDollar (branch settings) = true ->
  noDollar (folderPath settings) = true ->
  requestOutcome env = Resolved 200 \/ requestOutcome env = Resolved 201 ->
  let r := paste w in
  fst r = Normal tt /\
  getValue (editor (snd r)) = before ++ embedOf settings env (ofFile file) ++ after /\
  map bodyContent (requestsOf (newEffects w (snd r))) = [Some (afterFirstComma result)].
Proof.
  intros Huser Hrepo Hbranch Hfolder Hput r. subst r.
  rewrite handlePaste_run.
  rewrite processUpload_success;
    [| now apply overLimit_false_iff | assumption
     | intros _; rewrite reader_done; discriminate
     | now apply put_succeeded ].
  cbn [fst snd editor vault effects].
  rewrite paste_at_resolution, includes_append.
  rewrite getValue_setValue.
  rewrite replace_anchor;
    [| assumption | assumption | assumption
     | now apply embedOf_plain ].
  split; [reflexivity|]. split; [reflexivity|].
  unfold newEffects. cbn [effects]. rewrite <- app_assoc, skipn_length_app.
  unfold requestOf, contentOf, needsEncoding.
  cbn [ofFile base64 instanceofFile missing andb]. rewrite reader_done.
  reflexivity.
Qed.

(** X13. The same paste when the request fails: the text ends as the
    text before the selection, the marker "[Upload Failed: name]", and
    the text after the selection. *)
Theorem paste_ends_with_marker (err : JsValue) :
  uploadError (requestOutcome env) = Some err ->
  let r := paste w in
  fst r = Normal tt /\
  getValue (editor (snd r))
  = before ++ ("[Upload Failed: " ++ fileName file ++ "]") ++ after /\
  noticesOf (newEffects w (snd r)) = [UploadFailed (messageOf err)].
Proof.
  intros Herr r. subst r.
  rewrite handlePaste_run.
  rewrite (processUpload_uploadFailure _ _ _ _ _ _ err);
    [| now apply overLimit_false_iff | assumption
     | intros _; rewrite reader_done; discriminate
     | assumption ].
  cbn [fst snd editor vault effects].
  rewrite paste_at_resolution, getValue_setValue.
  rewrite replace_anchor;
    [| assumption | assumption | assumption
     | now apply (failureMarker_plain (ofFile file)) ].
  split; [reflexivity|]. split; [reflexivity|].
  unfold newEffects. cbn [effects]. rewrite <- app_assoc, skipn_length_app.
  reflexivity.
Qed.

End PasteEvent.

(** Feeds a statement its hypotheses, each settled by evaluation. *)
Ltac settle :=
  solve [ reflexivity | simpl; lia | left; reflexivity | right; reflexivity
        | intros; reflexivity | discriminate | simpl; auto ].

Ltac feed P :=
  repeat match type of P with
         | ?A -> _ =>
             let h := fresh in
             assert (h : A); [ settle | specialize (P h); clear h ]
         end.

Lemma paste_ignored_witness :
  Main.handlePaste Sample.settings (Sample.quiet Sample.created)
    [Sample.textFile; Sample.photo] Sample.selecting
  = (Normal tt, Sample.selecting).
Proof.
  apply (paste_ignored Sample.settings (Sample.quiet Sample.created)
           Sample.selecting [Sample.textFile; Sample.photo]).
  split; reflexivity.
Defined.

Lemma rejected_paste_is_swallowed_witness :
  exists n,
    Main.handlePaste DEFAULT_SETTINGS (Sample.quiet Sample.created)
      [Sample.photo] Sample.selecting
    = (Normal tt,
       {| editor := editor Sample.selecting; vault := vault Sample.selecting;
          effects := [PreventDefault; Notice n] |}).
Proof.
  pose proof (rejected_paste_is_swallowed DEFAULT_SETTINGS
                (Sample.quiet Sample.created) Sample.photo [] Sample.selecting) as P.
  feed P. exact P.
Defined.

Lemma paste_ends_with_embed_witness :
  getValue (editor (snd (Main.handlePaste Sample.settings
                           (Sample.quiet Sample.created) [Sample.photo]
                           Sample.selecting)))
  = "intro ![](https://raw.githubusercontent.com/alice/notes/main/assets/7-My-Photo.png) outro".
Proof.
  pose proof (paste_ends_with_embed Sample.settings (Sample.quiet Sample.created)
                Sample.photo [] Sample.selecting) as P.
  feed P. specialize (P "data:image/png;base64,QUJD"). feed P.
  exact (proj1 (proj2 P)).
Defined.

Lemma paste_ends_with_marker_witness :
  getValue (editor (snd (Main.handlePaste Sample.settings
                           (Sample.quiet Sample.serverError) [Sample.photo]
                           Sample.selecting)))
  = "intro [Upload Failed: My Photo.png] outro".
Proof.
  pose proof (paste_ends_with_marker Sample.settings (Sample.quiet Sample.serverError)
                Sample.photo [] Sample.selecting) as P.
  feed P. specialize (P "data:image/png;base64,QUJD"). feed P.
  specialize (P (ErrorObject "Request failed, status 500" (Some 500%Z))). feed P.
  exact (proj1 (proj2 P)).
Defined.

Section FallbackEvent.

Context {Editor : Type} `{EditorOps Editor}.
Variable settings : Settings.
Variable env : Env Editor.
Variable arrayBufferToBase64 : string -> string.
Variable activeLeaf : option string.
Variable file : TFile.
Variable w : World Editor.

Local Abbreviation handler :=
  (Main.handleFileCreate settings env arrayBufferToBase64 activeLeaf file).
Local Abbreviation link := ("![[" ++ tfName file ++ "]]").
Local Abbreviation settled := (getValue (editsWhileSettling env (editor w))).

(** X14. The handler needs an active leaf that shows a markdown view:
    without one it returns with no effect, whatever the file and the
    documents. *)
Theorem fallback_needs_markdown_view :
  match activeLeaf with
  | None => True
  | Some viewType => viewType <> "markdown"
  end ->
  Main.handleFileCreate settings env arrayBufferToBase64 activeLeaf file w
  = (Normal tt, w).
Proof.
  intros Hleaf. unfold Main.handleFileCreate. cbv zeta.
  destruct (negb (Main.listIncludes (tfExtension file) Main.imageExtensions)
            && negb (Main.listIncludes (tfExtension file) Main.videoExtensions));
    [reflexivity|].
  destruct activeLeaf as [viewType|]; [|reflexivity].
  destruct (String.eqb_spec viewType "markdown") as [E|_]; [now elim Hleaf|].
  reflexivity.
Qed.

Hypothesis allowed : allowedExtension file = true.

Hypothesis markdown : activeLeaf = Some "markdown".

(** What the handler does once the file is accepted. *)
Lemma handleFileCreate_run :
  includes (tfName file) settled = true ->
  handler w =
  (let w0 := {| editor := editsWhileReadingVault env (editsWhileSettling env (editor w));
                vault := vault w;
                effects := (effects w
                            ++ [Notice (MobileUploadDetected (tfName file));
                                VaultReadBinary (tfPath file)])%list |} in
   match lookupFile (tfPath file) (vault w) with
   | None => (Throw (ErrorObject "ENOENT" None), w0)
   | Some bytes =>
       let (c, w') :=
         Main.processUpload settings env
           (mobileFileObj arrayBufferToBase64 file bytes) false (Some link) w0 in
       match c with
       | Normal true => vaultDelete (tfPath file) w'
       | Normal false => (Normal tt, w')
       | Throw e => (Throw e, w')
       end
   end).
Proof.
  intros named. unfold Main.handleFileCreate.
  rewrite (allowedExtension_true file allowed), markdown.
  change (negb ("markdown" =? "markdown")%string) with false. cbv iota.
  run. rewrite named. cbn [negb fst snd editor vault effects].
  unfold vaultReadBinary. run. rewrite app_effects.
  destruct (lookupFile (tfPath file) (vault w)) as [bytes|]; [|reflexivity].
  unfold mobileFileObj.
  match goal with
  | |- context [Main.processUpload settings env ?fo false ?l ?w1] =>
      destruct (Main.processUpload settings env fo false l w1) as [[[|]|] w']
  end; reflexivity.
Qed.

(** X15. When the file is gone from the vault by the time it is read,
    the handler throws: nothing catches the rejection of [readBinary].
    By then it has announced the upload, and it has written nothing and
    sent nothing. *)
Theorem fallback_read_failure :
  includes (tfName file) settled = true ->
  lookupFile (tfPath file) (vault w) = None ->
  let r := handler w in
  (exists e, fst r = Throw e) /\
  newEffects w (snd r)
  = [Notice (MobileUploadDetected (tfName file)); VaultReadBinary (tfPath file)] /\
  vault (snd r) = vault w.
Proof.
  intros named Hgone r. subst r. rewrite handleFileCreate_run by exact named.
  cbv zeta.
  rewrite Hgone. cbn [fst snd vault]. rewrite newEffects_run.
  split; [eexists; reflexivity | split; reflexivity].
Qed.

Variable bytes : string.
Variables pre post : string.

Hypothesis stored : lookupFile (tfPath file) (vault w) = Some bytes.
Hypothesis linked : settled = pre ++ link ++ post.
Hypothesis first_link : indexOf link settled = Some (String.length pre).
Hypothesis within_limit : (tfStatSize file <= 25 * (1024 * 1024))%Z.
Hypothesis settings_present : configured settings = true.
Hypothesis quiet_read : forall e, getValue (editsWhileReadingVault env e) = getValue e.
Hypothesis quiet_upload : forall e, getValue (editsWhileUploading env e) = getValue e.
Hypothesis fresh_pre : includes (placeholderToken env) pre = false.
Hypothesis fresh_name : includes (placeholderToken env) (tfName file) = false.
Hypothesis fresh_post : includes (placeholderToken env) post = false.
Hypothesis plain_name : noDollar (tfName file) = true.

Local Abbreviation fileObj := (mobileFileObj arrayBufferToBase64 file bytes).
Local Abbreviation placeholder := (Main.placeholderOf env fileObj).

Lemma link_names_file : includes (tfName file) settled = true.
Proof.
  rewrite linked. apply includes_iff.
  exists (pre ++ "![["), ("]]" ++ post). now rewrite !append_assoc.
Qed.

Lemma fallback_at_resolution :
  getValue (atResolution env fileObj false (Some link)
              (editsWhileReadingVault env (editsWhileSettling env (editor w))))
  = pre ++ placeholder ++ post.
Proof.
  unfold atResolution, afterInsertion, needsEncoding.
  cbn [mobileFileObj base64 instanceofFile]. rewrite andb_false_r.
  change (truthy link) with true. cbv iota.
  rewrite quiet_upload, getValue_setValue, quiet_read.
  apply replace_at; [exact linked | exact first_link |].
  now apply (placeholderOf_plain env fileObj).
Qed.

(** X16. The fallback path, start to end.  When the settled note shows
    the link [![[name]]], nothing is typed meanwhile, names and settings
    hold no dollar sign, the token is fresh and the PUT is answered with
    200 or 201, the first occurrence of the link ends up exchanged for
    the embed, the rest of the text is as it was, and the file is
    deleted from the vault. *)
Theorem fallback_ends_with_embed :
  noDollar (githubUser settings) = true ->
  noDollar (githubRepo settings) = true ->
  noDollar (branch settings) = true ->
  noDollar (folderPath settings) = true ->
  requestOutcome env = Resolved 200 \/ requestOutcome env = Resolved 201 ->
  let r := handler w in
  fst r = Normal tt /\
  getValue (editor (snd r)) = pre ++ embedOf settings env fileObj ++ post /\
  vault (snd r) = removeFile (tfPath file) (vault w) /\
  deletionsOf (newEffects w (snd r)) = [tfPath file].
Proof.
  intros Huser Hrepo Hbranch Hfolder Hput r. subst r.
  rewrite handleFileCreate_run by exact link_names_file. cbv zeta. rewrite stored.
  rewrite processUpload_success;
    [| now apply overLimit_false_iff | assumption
     | unfold needsEncoding; cbn [mobileFileObj base64 instanceofFile];
       rewrite andb_false_r; discriminate
     | now apply put_succeeded ].
  cbn [editor vault effects].
  rewrite fallback_at_resolution, includes_append.
  unfold vaultDelete. run.
  rewrite getValue_setValue.
  rewrite replace_anchor;
    [| assumption | assumption | assumption | now apply embedOf_plain ].
  split; [reflexivity|]. split; [reflexivity|]. split; [reflexivity|].
  unfold newEffects. cbn [effects].
  rewrite <- !app_assoc, skipn_length_app.
  rewrite !deletionsOf_app. cbn [deletionsOf].
  rewrite (deletionsOf_insertion env fileObj false (Some link)). reflexivity.
Qed.

(** X17. The same when the request fails: the first occurrence of the
    link ends up exchanged for the marker "[Upload Failed: name]", and
    the file stays in the vault. *)
Theorem fallback_ends_with_marker (err : JsValue) :
  uploadError (requestOutcome env) = Some err ->
  let r := handler w in
  fst r = Normal tt /\
  getValue (editor (snd r))
  = pre ++ ("[Upload Failed: " ++ tfName file ++ "]") ++ post /\
  vault (snd r) = vault w /\
  deletionsOf (newEffects w (snd r)) = [].
Proof.
  intros Herr r. subst r.
  rewrite handleFileCreate_run by exact link_names_file. cbv zeta. rewrite stored.
  rewrite (processUpload_uploadFailure _ _ _ _ _ _ err);
    [| now apply overLimit_false_iff | assumption
     | unfold needsEncoding; cbn [mobileFileObj base64 instanceofFile];
       rewrite andb_false_r; discriminate
     | assumption ].
  cbn [fst snd editor vault effects].
  rewrite fallback_at_resolution, getValue_setValue.
  rewrite replace_anchor;
    [| assumption | assumption | assumption
     | now apply (failureMarker_plain fileObj) ].
  split; [reflexivity|]. split; [reflexivity|]. split; [reflexivity|].
  unfold newEffects. cbn [effects].
  rewrite <- !app_assoc, skipn_length_app.
  rewrite !deletionsOf_app. cbn [deletionsOf].
  rewrite (deletionsOf_insertion env fileObj false (Some link)). reflexivity.
Qed.

End FallbackEvent.

Lemma fallback_needs_markdown_view_witness :
  Main.handleFileCreate Sample.settings (Sample.quiet Sample.created)
    (fun b => b) (Some "canvas") Sample.picture (Sample.world "see ![[pic.png]] here")
  = (Normal tt, Sample.world "see ![[pic.png]] here").
Proof.
  pose proof (fallback_needs_markdown_view Sample.settings (Sample.quiet Sample.created)
                (fun b => b) (Some "canvas") Sample.picture
                (Sample.world "see ![[pic.png]] here")) as P.
  feed P. exact P.
Defined.

Lemma fallback_read_failure_witness :
  let w := {| editor := bufferOf "see ![[pic.png]] here"; vault := [];
              effects := [] |} in
  let r := Main.handleFileCreate Sample.settings (Sample.quiet Sample.created)
             (fun b => b) (Some "markdown") Sample.picture w in
  (exists e, fst r = Throw e) /\
  newEffects w (snd r)
  = [Notice (MobileUploadDetected "pic.png"); VaultReadBinary "attachments/pic.png"] /\
  vault (snd r) = [].
Proof.
  pose proof (fallback_read_failure Sample.settings (Sample.quiet Sample.created)
                (fun b => b) (Some "markdown") Sample.picture
                {| editor := bufferOf "see ![[pic.png]] here"; vault := [];
                   effects := [] |}) as P.
  feed P. exact P.
Defined.

Lemma fallback_ends_with_embed_witness :
  let r := Main.handleFileCreate Sample.settings (Sample.quiet Sample.created)
             (fun b => b) (Some "markdown") Sample.picture
             (Sample.world "see ![[pic.png]] here") in
  getValue (editor (snd r))
  = "see ![](https://raw.githubusercontent.com/alice/notes/main/assets/7-pic.png) here"
  /\ vault (snd r) = [].
Proof.
  pose proof (fallback_ends_with_embed Sample.settings (Sample.quiet Sample.created)
                (fun b => b) (Some "markdown") Sample.picture
                (Sample.world "see ![[pic.png]] here")) as P.
  feed P. specialize (P "ABC" "see " " here"). feed P.
  split; [exact (proj1 (proj2 P)) | exact (proj1 (proj2 (proj2 P)))].
Defined.

Lemma fallback_ends_with_marker_witness :
  let r := Main.handleFileCreate Sample.settings (Sample.quiet Sample.serverError)
             (fun b => b) (Some "markdown") Sample.picture
             (Sample.world "see ![[pic.png]] here") in
  getValue (editor (snd r)) = "see [Upload Failed: pic.png] here"
  /\ vault (snd r) = [("attachments/pic.png", "ABC")].
Proof.
  pose proof (fallback_ends_with_marker Sample.settings
                (Sample.quiet Sample.serverError)
                (fun b => b) (Some "markdown") Sample.picture
                (Sample.world "see ![[pic.png]] here")) as P.
  feed P. specialize (P "ABC" "see " " here"). feed P.
  specialize (P (ErrorObject "Request failed, status 500" (Some 500%Z))). feed P.
  split; [exact (proj1 (proj2 P)) | exact (proj1 (proj2 (proj2 P)))].
Defined.

(* ================================================================== *)
(** * The request and the encoding *)
(* ================================================================== *)

Section Request.

Context {Editor : Type} `{EditorOps Editor}.
Variable env : Env Editor.
Variables user repo token branch path : string.
Variable content : option string.
Variable w : World Editor.

Local Abbreviation send :=
  (Main.uploadToGithub env user repo token branch path content).

(** X18. [uploadToGithub] sends exactly one request whatever comes
    back: a PUT to the contents endpoint with the token in the
    Authorization header and the commit message "Upload path".  It
    returns normally exactly when the request resolves with status 200
    or 201. *)
Theorem uploadToGithub_one_put :
  newEffects w (snd (send w))
  = [RequestUrl
       {| url := "https://api.github.com/repos/" ++ user ++ "/" ++ repo
                 ++ "/contents/" ++ path;
          method := "PUT";
          authorization := "token " ++ token;
          contentType := "application/json";
          userAgent := "Obsidian-Plugin";
          bodyMessage := "Upload " ++ path;
          bodyContent := content;
          bodyBranch := branch |}]
  /\ (fst (send w) = Normal tt
      <-> requestOutcome env = Resolved 200 \/ requestOutcome env = Resolved 201).
Proof.
  rewrite uploadToGithub_run. cbn [fst snd]. rewrite newEffects_run.
  split; [reflexivity|]. unfold uploadError.
  destruct (requestOutcome env) as [status|e].
  - destruct (Z.eqb_spec status 200) as [->|N200]; cbn [negb andb].
    + tauto.
    + destruct (Z.eqb_spec status 201) as [->|N201]; cbn [negb].
      * tauto.
      * split; [discriminate|]. intros [E|E]; injection E as E; contradiction.
  - split; [discriminate | intros [E|E]; discriminate E].
Qed.

(** X19. A rejection that carries no status (the network failed), or a
    status other than 404, 401 and 413, is passed on as it is, message
    and status included. *)
Theorem unmapped_rejection_passes (e : JsValue) :
  requestOutcome env = Rejected e ->
  statusOf e <> Some 404%Z ->
  statusOf e <> Some 401%Z ->
  statusOf e <> Some 413%Z ->
  fst (send w) = Throw e.
Proof.
  intros Hout N404 N401 N413.
  rewrite uploadToGithub_run, Hout. cbn [fst uploadError]. unfold hasStatus.
  destruct (statusOf e) as [status|]; [|reflexivity].
  destruct (Z.eqb_spec status 404) as [->|_]; [now elim N404|].
  destruct (Z.eqb_spec status 401) as [->|_]; [now elim N401|].
  destruct (Z.eqb_spec status 413) as [->|_]; [now elim N413|].
  reflexivity.
Qed.

End Request.

Lemma unmapped_rejection_passes_witness :
  fst (Main.uploadToGithub
         (Sample.quiet (Rejected (ErrorObject "net::ERR_INTERNET_DISCONNECTED" None)))
         "alice" "notes" "ghp_token" "main" "assets/7-a.png" (Some "QUJD")
         (Sample.world "note"))
  = Throw (ErrorObject "net::ERR_INTERNET_DISCONNECTED" None).
Proof.
  apply unmapped_rejection_passes; [reflexivity | discriminate ..].
Defined.

Lemma indexOf_comma (header payload : string) :
  occursIn "," header = false ->
  indexOf "," (header ++ "," ++ payload) = Some (String.length header).
Proof.
  induction header as [|c header IH]; intros Hc.
  - apply indexOf_prefix. apply (prefix_append "," payload).
  - cbn [occursIn] in Hc. apply orb_false_iff in Hc. destruct Hc as [Hc Hrest].
    change (String c header ++ "," ++ payload)
      with (String c (header ++ "," ++ payload)).
    rewrite indexOf_cons, (IH Hrest). cbn [String.prefix String.length option_map].
    destruct (ascii_dec "," c) as [<-|_]; [|reflexivity].
    now rewrite Ascii.eqb_refl in Hc.
Qed.

Lemma indexOf_no_comma (s : string) :
  occursIn "," s = false -> indexOf "," s = None.
Proof.
  induction s as [|c s IH]; intros Hc; [reflexivity|].
  cbn [occursIn] in Hc. apply orb_false_iff in Hc. destruct Hc as [Hc Hrest].
  rewrite indexOf_cons, (IH Hrest). cbn [String.prefix option_map].
  destruct (ascii_dec "," c) as [<-|_]; [|reflexivity].
  now rewrite Ascii.eqb_refl in Hc.
Qed.

Section Encoding.

Context {Editor : Type} `{EditorOps Editor}.
Variable env : Env Editor.
Variable w : World Editor.

(** X20. [fileToBase64] gives the payload of the data URL: everything
    after the first comma, further commas included.  When the result of
    the reader holds no comma at all, it is given back whole.  Reading
    has no effect on the world but the passing of time. *)
Theorem fileToBase64_payload :
  (forall header payload,
     readerResult env = Some (header ++ "," ++ payload) ->
     occursIn "," header = false ->
     fst (Main.fileToBase64 env w) = Normal payload) /\
  (forall result,
     readerResult env = Some result ->
     occursIn "," result = false ->
     fst (Main.fileToBase64 env w) = Normal result) /\
  effects (snd (Main.fileToBase64 env w)) = effects w /\
  vault (snd (Main.fileToBase64 env w)) = vault w.
Proof.
  unfold Main.fileToBase64. run. repeat split.
  - intros header payload Hread Hheader. rewrite Hread. cbn [fst].
    unfold afterFirstComma. rewrite indexOf_comma by exact Hheader.
    rewrite from_add, from_append. reflexivity.
  - intros result Hread Hnone. rewrite Hread. cbn [fst].
    unfold afterFirstComma. now rewrite indexOf_no_comma.
  - now destruct (readerResult env).
  - now destruct (readerResult env).
Qed.

End Encoding.

Lemma fileToBase64_payload_witness :
  fst (Main.fileToBase64 (Sample.quiet Sample.created) (Sample.world "note"))
  = Normal "QUJD".
Proof.
  apply (proj1 (fileToBase64_payload (Sample.quiet Sample.created)
                  (Sample.world "note")) "data:image/png;base64" "QUJD");
    reflexivity.
Defined.

(* ================================================================== *)
(** * File names and folders *)
(* ================================================================== *)

Lemma noWhiteSpace_append (a b : string) :
  noWhiteSpace (a ++ b) = noWhiteSpace a && noWhiteSpace b.
Proof.
  induction a as [|c a IH]; simpl; [reflexivity|]. now rewrite IH, andb_assoc.
Qed.

Lemma noWhiteSpace_replaceRuns (inRun : bool) (s : string) :
  noWhiteSpace (replaceRuns inRun s) = true.
Proof.
  revert inRun; induction s as [|c s IH]; intros inRun; [reflexivity|].
  cbn [replaceRuns]. destruct (isWhiteSpace c) eqn:Hc.
  - destruct inRun; [apply IH|]. cbn [noWhiteSpace]. rewrite IH. reflexivity.
  - cbn [noWhiteSpace]. rewrite Hc, IH. reflexivity.
Qed.

Lemma replaceRuns_plain (s : string) :
  noWhiteSpace s = true -> replaceRuns false s = s.
Proof.
  induction s as [|c s IH]; [reflexivity|].
  cbn [noWhiteSpace replaceRuns]. intros Hs. apply andb_true_iff in Hs.
  destruct Hs as [Hc Hs]. apply negb_true_iff in Hc. rewrite Hc.
  now rewrite IH.
Qed.

Lemma length_replaceRuns (inRun : bool) (s : string) :
  String.length (replaceRuns inRun s) <= String.length s.
Proof.
  revert inRun; induction s as [|c s IH]; intros inRun; [apply Nat.le_refl|].
  cbn [replaceRuns]. destruct (isWhiteSpace c).
  - destruct inRun; cbn [String.length].
    + specialize (IH true). lia.
    + specialize (IH true). lia.
  - cbn [String.length]. specialize (IH false). lia.
Qed.

Lemma noWhiteSpace_decimal (s : string) :
  decimalText s = true -> noWhiteSpace s = true.
Proof.
  induction s as [|c s IH]; [reflexivity|].
  cbn [decimalText noWhiteSpace]. intros Hs. apply andb_true_iff in Hs.
  destruct Hs as [Hc Hs]. rewrite (IH Hs), andb_true_r.
  cbn [occursIn] in Hc.
  repeat (apply orb_true_iff in Hc; destruct Hc as [Hc|Hc]);
    try discriminate; apply Ascii.eqb_eq in Hc; subst c; reflexivity.
Qed.

(** X21. The remote file name never holds white space, whatever the
    name of the item; it is never longer than the time stamp, the
    hyphen and the name; and a name without white space is taken as it
    is. *)
Theorem remote_file_name_clean (T : Z) (name : string) :
  noWhiteSpace (remoteFileName T name) = true /\
  String.length (remoteFileName T name)
  <= String.length (ofZ T) + 1 + String.length name /\
  (noWhiteSpace name = true -> remoteFileName T name = ofZ T ++ "-" ++ name).
Proof.
  unfold remoteFileName, replaceWhiteSpaceRuns. split; [|split].
  - rewrite !noWhiteSpace_append, noWhiteSpace_replaceRuns.
    rewrite (noWhiteSpace_decimal _ (decimalText_ofZ T)). reflexivity.
  - rewrite !length_append. cbn [String.length].
    pose proof (length_replaceRuns false name). lia.
  - intros Hname. now rewrite replaceRuns_plain.
Qed.

Lemma stripTrailingSlash_empty (s : string) :
  stripTrailingSlash s = "" <-> s = "" \/ s = "/".
Proof.
  destruct s as [|c r]; [simpl; tauto|].
  cbn [stripTrailingSlash].
  destruct (Ascii.eqb_spec c "/") as [->|N]; cbn [andb].
  - destruct r; cbn [isEmpty].
    + tauto.
    + split; [discriminate|]. intros [E|E]; discriminate E.
  - split; [discriminate|]. intros [E|E]; [discriminate E|].
    injection E as E _. now elim N.
Qed.

(** X22. The file goes to the root of the repository, that is, the
    path is the bare file name, exactly when the folder setting is,
    after trimming, empty or a single slash. *)
Theorem root_iff_folder_empty (folderPath fileName : string) :
  remotePath folderPath fileName = fileName
  <-> trim folderPath = "" \/ trim folderPath = "/".
Proof.
  rewrite <- stripTrailingSlash_empty, <- remoteFolder_strip.
  unfold remotePath, truthy.
  destruct (remoteFolder folderPath) as [|c r] eqn:E; cbn [isEmpty negb].
  - tauto.
  - split; [|discriminate]. intros Hpath.
    apply (f_equal String.length) in Hpath.
    rewrite !length_append in Hpath. cbn [String.length] in Hpath. lia.
Qed.

(* ================================================================== *)
(** * More about the older paste handler *)
(* ================================================================== *)

Section OlderRuns.

Context {Editor : Type} `{EditorOps Editor}.
Variable settings : Settings.
Variable env : Env Editor.
Variable file : File.
Variable rest : list File.
Variable w : World Editor.

Local Abbreviation placeholder := (Part000.placeholderOf file).
Local Abbreviation paste := (Part000.handlePaste settings env (file :: rest)).
Local Abbreviation waiting :=
  (editsWhileUploading env
     (editsWhileEncoding env (replaceSelection placeholder (editor w)))).

Hypothesis media :
  startsWith "image/" (fileType file) || startsWith "video/" (fileType file) = true.

(** X23. The older handler checks before it takes the paste: a media
    paste that is turned away for its size or for the settings shows one
    notice and nothing else, so the event is left to the host. *)
Theorem older_rejected_paste_left_to_host :
  (25 * (1024 * 1024) < fileSize file)%Z \/ configured settings = false ->
  exists n,
    paste w =
    (Normal tt,
     {| editor := editor w; vault := vault w;
        effects := (effects w ++ [Notice n])%list |}).
Proof.
  intros Hrejected.
  destruct (Z_lt_le_dec (25 * (1024 * 1024)) (fileSize file)) as [Hbig|Hsmall].
  - eexists. now apply older_oversize_rejected.
  - destruct Hrejected as [Hbig|Hcfg]; [lia|].
    eexists. now apply older_missing_configuration_rejected.
Qed.

Variable result : string.
Hypothesis within_limit : (fileSize file <= 25 * (1024 * 1024))%Z.
Hypothesis settings_present : configured settings = true.
Hypothesis reader_done : readerResult env = Some result.

(** X24. The older handler does not test for the placeholder.  When the
    request succeeds and the placeholder is no longer in the document,
    the text stays as it is: the upload is announced, but the embed is
    written nowhere. *)
Theorem older_embed_lost :
  uploadError (requestOutcome env) = None ->
  includes placeholder (getValue waiting) = false ->
  let r := paste w in
  fst r = Normal tt /\
  getValue (editor (snd r)) = getValue waiting /\
  noticesOf (newEffects w (snd r))
  = [UploadingType (fileType file);
     Uploaded (remoteFileName (nowFileName env) (fileName file))].
Proof.
  intros Hok Hgone r. subst r.
  pose proof within_limit as Hsize. apply overLimit_false_iff in Hsize.
  unfold Part000.handlePaste. cbv zeta.
  rewrite (media_passes file media), Hsize, (configured_true settings settings_present).
  unfold Main.fileToBase64. rewrite reader_done. run.
  rewrite uploadToGithub_run, Hok. cbn [fst snd editor vault effects].
  rewrite getValue_setValue, replace_absent by exact Hgone.
  split; [reflexivity|]. split; [reflexivity|].
  unfold newEffects. cbn [effects].
  repeat rewrite <- app_assoc. rewrite skipn_length_app. reflexivity.
Qed.

(** X25. In the older handler the marker of a failed request is made
    from the message of the error: the first occurrence of the
    placeholder makes room for "[Upload Failed: message]" (for a message
    free of the patterns [replace] expands). *)
Theorem older_marker_holds_message (err : JsValue) :
  uploadError (requestOutcome env) = Some err ->
  includes placeholder (getValue waiting) = true ->
  hasSubstitutionPattern (failureMarker (messageOf err)) = false ->
  exists pre post,
    getValue waiting = pre ++ placeholder ++ post /\
    getValue (editor (snd (paste w)))
    = pre ++ ("[Upload Failed: " ++ messageOf err ++ "]") ++ post.
Proof.
  intros Herr Hpresent Hplain.
  rewrite (older_failure_marker settings env file rest w media result err
             within_limit settings_present reader_done Herr).
  cbn [editor]. rewrite getValue_setValue.
  destruct (replace_first placeholder (failureMarker (messageOf err))
              (getValue waiting) Hpresent Hplain)
    as (pre & post & Hdoc & _ & Hnew).
  exists pre, post. split; [exact Hdoc | exact Hnew].
Qed.

End OlderRuns.

Lemma older_rejected_paste_left_to_host_witness :
  exists n,
    Part000.handlePaste DEFAULT_SETTINGS (Sample.quiet Sample.created)
      [Sample.photo] Sample.selecting
    = (Normal tt,
       {| editor := editor Sample.selecting; vault := vault Sample.selecting;
          effects := [Notice n] |}).
Proof.
  pose proof (older_rejected_paste_left_to_host DEFAULT_SETTINGS
                (Sample.quiet Sample.created) Sample.photo [] Sample.selecting) as P.
  feed P. exact P.
Defined.

Lemma older_embed_lost_witness :
  let env := {| nowPlaceholder := 5; nowFileName := 7;
                readerResult := Some "data:image/png;base64,QUJD";
                requestOutcome := Sample.created;
                editsWhileSettling := fun e : Buffer => e;
                editsWhileReadingVault := fun e => e;
                editsWhileEncoding := fun e => e;
                editsWhileUploading := fun _ => bufferOf "typed over" |} in
  getValue (editor (snd (Part000.handlePaste Sample.settings env [Sample.photo]
                           Sample.selecting)))
  = "typed over".
Proof.
  cbv zeta.
  pose proof (older_embed_lost Sample.settings
                {| nowPlaceholder := 5; nowFileName := 7;
                   readerResult := Some "data:image/png;base64,QUJD";
                   requestOutcome := Sample.created;
                   editsWhileSettling := fun e : Buffer => e;
                   editsWhileReadingVault := fun e => e;
                   editsWhileEncoding := fun e => e;
                   editsWhileUploading := fun _ => bufferOf "typed over" |}
                Sample.photo [] Sample.selecting) as P.
  feed P. specialize (P "data:image/png;base64,QUJD"). feed P.
  exact (proj1 (proj2 P)).
Defined.

Lemma older_marker_holds_message_witness :
  exists pre post,
    "intro ![Uploading My Photo.png...]() outro"
    = pre ++ "![Uploading My Photo.png...]()" ++ post /\
    getValue (editor (snd (Part000.handlePaste Sample.settings
                             (Sample.quiet Sample.serverError) [Sample.photo]
                             Sample.selecting)))
    = pre ++ "[Upload Failed: Request failed, status 500]" ++ post.
Proof.
  pose proof (older_marker_holds_message Sample.settings
                (Sample.quiet Sample.serverError) Sample.photo []
                Sample.selecting) as P.
  feed P. specialize (P "data:image/png;base64,QUJD"). feed P.
  specialize (P (ErrorObject "Request failed, status 500" (Some 500%Z))). feed P.
  exact P.
Defined.

(* ================================================================== *)
(** * A note that names the file without the link *)
(* ================================================================== *)

Section WithoutLink.

Context {Editor : Type} `{EditorOps Editor}.
Variable settings : Settings.
Variable env : Env Editor.
Variable arrayBufferToBase64 : string -> string.
Variable file : TFile.
Variable w : World Editor.
Variable bytes : string.

Local Abbreviation handler :=
  (Main.handleFileCreate settings env arrayBufferToBase64 (Some "markdown") file).
Local Abbreviation link := ("![[" ++ tfName file ++ "]]").
Local Abbreviation settled := (getValue (editsWhileSettling env (editor w))).
Local Abbreviation fileObj := (mobileFileObj arrayBufferToBase64 file bytes).

Hypothesis allowed : allowedExtension file = true.
Hypothesis named : includes (tfName file) settled = true.
Hypothesis no_link : includes link settled = false.
Hypothesis no_placeholder : includes (Main.placeholderOf env fileObj) settled = false.
Hypothesis stored : lookupFile (tfPath file) (vault w) = Some bytes.
Hypothesis within_limit : (tfStatSize file <= 25 * (1024 * 1024))%Z.
Hypothesis settings_present : configured settings = true.
Hypothesis quiet_read : forall e, getValue (editsWhileReadingVault env e) = getValue e.
Hypothesis quiet_upload : forall e, getValue (editsWhileUploading env e) = getValue e.


End WithoutLink.


(* ================================================================== *)
(** * From the store to the upload *)
(* ================================================================== *)

Section StoreToUpload.

Context {Editor : Type} `{EditorOps Editor}.
Variable env : Env Editor.
Variable fileObj : FileObj.
Variable isPasteEvent : bool.
Variable linkToReplace : option string.
Variable w : World Editor.

(** X27. On a fresh install, where no data file exists, the settings
    that are loaded are the defaults, and with them every item within
    the size limit is turned away with the notice about the settings:
    nothing is sent and nothing is written. *)
Theorem fresh_install_rejects (p : SettingsStore.Plugin) :
  SettingsStore.data p = None ->
  (size fileObj <= 25 * (1024 * 1024))%Z ->
  SettingsStore.readSettings (SettingsStore.settings (SettingsStore.loadSettings p))
  = Some DEFAULT_SETTINGS /\
  Main.processUpload DEFAULT_SETTINGS env fileObj isPasteEvent linkToReplace w
  = (Normal false,
     {| editor := editor w; vault := vault w;
        effects := (effects w ++ [Notice ConfigureGitHubSettings])%list |}).
Proof.
  intros Hnone Hsize. split.
  - rewrite loadSettings_read. unfold storedOr. now rewrite Hnone.
  - apply processUpload_unconfigured; [now apply overLimit_false_iff | reflexivity].
Qed.

End StoreToUpload.

Lemma fresh_install_rejects_witness :
  Main.processUpload DEFAULT_SETTINGS (Sample.quiet Sample.created)
    (Sample.pasted "a.png" 1000) true None (Sample.world "note")
  = (Normal false,
     {| editor := bufferOf "note"; vault := [("attachments/pic.png", "ABC")];
        effects := [Notice ConfigureGitHubSettings] |}).
Proof.
  pose proof (fresh_install_rejects (Sample.quiet Sample.created)
                (Sample.pasted "a.png" 1000) true None (Sample.world "note")
                {| SettingsStore.settings := SettingsStore.emptyObject;
                   SettingsStore.data := None |}) as P.
  feed P. exact (proj2 P).
Defined.

(** X28. Filling in the user, the repository and the token in the
    settings tab is enough: whatever was stored before, the settings
    then read back with the three values typed, the other two fields as
    they were, and when none of the three is blank the settings pass the
    check of [processUpload]. *)
Theorem three_inputs_configure (p : SettingsStore.Plugin) (user repo token : string) :
  let p' :=
    SettingsStore.change "githubToken" token
      (SettingsStore.change "githubRepo" repo
         (SettingsStore.change "githubUser" user (SettingsStore.loadSettings p))) in
  let s := {| githubUser := user; githubRepo := repo; githubToken := token;
              folderPath := storedOr p "folderPath" "";
              branch := storedOr p "branch" "main" |} in
  SettingsStore.readSettings (SettingsStore.settings p') = Some s /\
  SettingsStore.data p' = Some (SettingsStore.settings p') /\
  (allWhiteSpace user = false -> allWhiteSpace repo = false ->
   allWhiteSpace token = false -> configured s = true).
Proof.
  cbv zeta. split; [|split].
  - unfold SettingsStore.change, SettingsStore.saveSettings, SettingsStore.readSettings,
      SettingsStore.setProperty.
    cbn [SettingsStore.settings SettingsStore.data String.eqb Ascii.eqb Bool.eqb].
    pose proof (loadSettings_read p) as Hload.
    unfold SettingsStore.readSettings in Hload.
    destruct (SettingsStore.settings (SettingsStore.loadSettings p) "githubUser");
      [|discriminate].
    destruct (SettingsStore.settings (SettingsStore.loadSettings p) "githubRepo");
      [|discriminate].
    destruct (SettingsStore.settings (SettingsStore.loadSettings p) "githubToken");
      [|discriminate].
    destruct (SettingsStore.settings (SettingsStore.loadSettings p) "folderPath");
      [|discriminate].
    destruct (SettingsStore.settings (SettingsStore.loadSettings p) "branch");
      [|discriminate].
    injection Hload as _ _ _ -> ->. reflexivity.
  - reflexivity.
  - intros Huser Hrepo Htoken. unfold configured. cbn [githubUser githubRepo githubToken].
    assert (E : forall x, allWhiteSpace x = false -> isEmpty (trim x) = false).
    { intros x Hx. destruct (trim x) eqn:Ex; [|reflexivity].
      apply trim_empty_iff in Ex. congruence. }
    now rewrite (E _ Huser), (E _ Hrepo), (E _ Htoken).
Qed.

Lemma three_inputs_configure_witness :
  configured {| githubUser := "alice"; githubRepo := "notes";
                githubToken := "ghp_token"; folderPath := ""; branch := "main" |}
  = true.
Proof.
  apply (proj2 (proj2 (three_inputs_configure
                         {| SettingsStore.settings := SettingsStore.emptyObject;
                            SettingsStore.data := None |}
                         "alice" "notes" "ghp_token")));
    reflexivity.
Defined.

Example trim_ex : trim "  a b  " = "a b".
Proof. reflexivity. Qed.
Example runs_ex : replaceWhiteSpaceRuns "My  Photo 1.png" = "My-Photo-1.png".
Proof. reflexivity. Qed.
Example replace_ex1 : replace "b" "[$&$$$`$'$1]" "abc" = "a[b$ac$1]c".
Proof. reflexivity. Qed.
Example replace_ex2 : replace "x" "y" "abc" = "abc".
Proof. reflexivity. Qed.
Example replace_ex3 : replace "b" "y" "abcb" = "aycb".
Proof. reflexivity. Qed.
Example replace_ex4 : replace "" "y" "abcb" = "yabcb".
Proof. reflexivity. Qed.
Example ends_ex : endsWith "/" "assets/" = true /\ dropLast "assets/" = "assets" /\ endsWith "/" "" = false.
Proof. repeat split; reflexivity. Qed.
Example comma_ex : afterFirstComma "data:image/png;base64,AAAA" = "AAAA" /\ afterFirstComma "abc" = "abc".
Proof. repeat split; reflexivity. Qed.

Example older_marker_ex :
  getValue (editor (snd (Part000.handlePaste Sample.settings
                           (Sample.quiet Sample.serverError)
                           [{| fileName := "cat.png"; fileType := "image/png";
                               fileSize := 1000 |}]
                           (Sample.world "hello"))))
  = "[Upload Failed: Request failed, status 500]hello".
Proof. reflexivity. Qed.

Example mobile_success_ex :
  let r := Main.handleFileCreate Sample.settings (Sample.quiet Sample.created)
             (fun bytes => bytes) (Some "markdown") Sample.picture
             (Sample.world "see ![[pic.png]] here") in
  getValue (editor (snd r))
  = "see ![](https://raw.githubusercontent.com/alice/notes/main/assets/7-pic.png) here"
  /\ vault (snd r) = []
  /\ deletionsOf (effects (snd r)) = ["attachments/pic.png"].
Proof. cbv zeta. repeat split; reflexivity. Qed.

Example mobile_failure_ex :
  let r := Main.handleFileCreate Sample.settings (Sample.quiet Sample.serverError)
             (fun bytes => bytes) (Some "markdown") Sample.picture
             (Sample.world "see ![[pic.png]] here") in
  getValue (editor (snd r)) = "see [Upload Failed: pic.png] here"
  /\ vault (snd r) = [("attachments/pic.png", "ABC")]
  /\ deletionsOf (effects (snd r)) = [].
Proof. cbv zeta. repeat split; reflexivity. Qed.

Example paste_video_ex :
  getValue (editor (snd (Main.handlePaste Sample.settings (Sample.quiet Sample.created)
                           [{| fileName := "clip.mp4"; fileType := "video/mp4";
                               fileSize := 4096 |}]
                           (Sample.world ""))))
  = "<video src=" ++ dquote
    ++ "https://raw.githubusercontent.com/alice/notes/main/assets/7-clip.mp4"
    ++ dquote ++ " controls></video>".
Proof. reflexivity. Qed.
